(** * Slot generation and booking validation of consultoriosmonn

    A shallow embedding of [models_admin.py] ([HorarioAtencion.generar_slots]),
    [turno_generator.py] ([GeneradorTurnos.obtener_slots_disponibles],
    [GeneradorTurnos.validar_turno]) and of the ledger effect of the
    [nuevo_turno] view of [app.py].

    Conventions.
    - A table is the list of its rows in the order the database returns them;
      [Query.filter(..).all()] is [filter], [.first()] is [find] and
      [.count()] is the length of the filtered list.
    - A nullable column is an [option]; an SQL comparison with NULL selects
      nothing.
    - [datetime.time] is the number of microseconds since midnight,
      [datetime.date] is the proleptic ordinal ([date.toordinal()]) and
      [datetime.datetime] is [ordinal * 86400000000 + time].  Python (3.5 and
      later) treats every [time] object as true, so [if t] on a nullable time
      tests for [None] only.
    - A Python exception is [Raise]; a [while] loop is run on fuel and
      [NoFuel] is the loop that has not finished yet. *)

From Stdlib Require Import ZArith List Ascii String Bool Lia.
Import ListNotations.
Open Scope Z_scope.

(** ** Python values *)

Module Py.

Inductive exn : Type := TypeError | OverflowError.

Inductive res (A : Type) : Type :=
  | Ok (a : A)
  | Raise (e : exn)
  | NoFuel.
Arguments Ok {A} a.
Arguments Raise {A} e.
Arguments NoFuel {A}.

Definition bind {A B : Type} (m : res A) (k : A -> res B) : res B :=
    match m with
    | Ok a => k a
    | Raise e => Raise e
    | NoFuel => NoFuel
    end.

Definition is_ok {A : Type} (m : res A) : bool :=
    match m with Ok _ => true | _ => false end.

Definition time := Z.
Definition date := Z.
Definition datetime := Z.
Definition timedelta := Z.

Definition US_MINUTE : Z := 60000000.
Definition US_DAY : Z := 86400000000.
Definition MINORDINAL : Z := 1.
Definition MAXORDINAL : Z := 3652059.
Definition MAX_DELTA_DAYS : Z := 999999999.

  (** [time(h, m)] *)
Definition hm (h m : Z) : time := (h * 60 + m) * US_MINUTE.

Definition valid_time (t : time) : Prop := 0 <= t < US_DAY.

  (** [date.weekday()]: Monday is 0. *)
Definition weekday (d : date) : Z := (d + 6) mod 7.

  (** [datetime.combine(d, t)] *)
Definition combine (d : date) (t : time) : datetime := d * US_DAY + t.

  (** [datetime.time()] *)
Definition time_of (x : datetime) : time := x mod US_DAY.

  (** [timedelta(minutes=m)] for an [int]; the day count of a timedelta is
      limited to 999999999 in magnitude. *)
Definition timedelta_minutes (m : Z) : res timedelta :=
    let us := m * US_MINUTE in
    if (- MAX_DELTA_DAYS * US_DAY <=? us) && (us <? (MAX_DELTA_DAYS + 1) * US_DAY)
    then Ok us else Raise OverflowError.

  (** [timedelta(minutes=m)] where [m] may be [None]. *)
Definition timedelta_minutes_opt (m : option Z) : res timedelta :=
    match m with
    | Some z => timedelta_minutes z
    | None => Raise TypeError
    end.

  (** [datetime + timedelta]; the result must be a date of years 1..9999. *)
Definition dt_add (x : datetime) (td : timedelta) : res datetime :=
    let y := x + td in
    if (MINORDINAL * US_DAY <=? y) && (y <? (MAXORDINAL + 1) * US_DAY)
    then Ok y else Raise OverflowError.

  (** Truth value of a nullable [int] and of a nullable [bool]. *)
Definition truthy_int (o : option Z) : bool :=
    match o with Some z => negb (z =? 0) | None => false end.

Definition truthy_bool (o : option bool) : bool :=
    match o with Some b => b | None => false end.

  (** [str(x)] inside an f-string, for a nullable string. *)
Definition str_opt (o : option string) : string :=
    match o with Some s => s | None => "None"%string end.

End Py.
Import Py.

Notation "x <- m ;; k" := (bind m (fun x => k))
  (at level 61, m at next level, right associativity).

(** ** Data model ([models.py], [models_admin.py]) *)

Inductive EstadoTurno : Type := PENDIENTE | CONFIRMADO | REALIZADO | CANCELADO.

Definition EstadoTurno_eqb (a b : EstadoTurno) : bool :=
  match a, b with
  | PENDIENTE, PENDIENTE | CONFIRMADO, CONFIRMADO
  | REALIZADO, REALIZADO | CANCELADO, CANCELADO => true
  | _, _ => false
  end.

(** [Turno.estado.in_([EstadoTurno.PENDIENTE, EstadoTurno.CONFIRMADO])] *)
Definition estado_ocupa (e : EstadoTurno) : bool :=
  EstadoTurno_eqb e PENDIENTE || EstadoTurno_eqb e CONFIRMADO.

Record ConfiguracionEspecialista : Type := {
  cfg_especialista_id : Z;
  duracion_turno_minutos : Z;
  pacientes_maximos_dia : Z;
  tiempo_buffer_minutos : option Z;
  permite_sobreturnos : option bool;
  sobreturnos_maximos : option Z
}.

Record HorarioAtencion : Type := {
  h_especialista_id : Z;
  h_especialidad_id : Z;
  dia_semana : Z;
  h_hora_inicio : time;
  h_hora_fin : time;
  duracion_turno_custom : option Z;
  h_activo : option bool
}.

Record BloqueoHorario : Type := {
  b_especialista_id : Z;
  fecha_inicio : date;
  fecha_fin : date;
  b_hora_inicio : option time;
  b_hora_fin : option time;
  motivo : option string;
  b_activo : option bool
}.

Record Turno : Type := {
  t_id : Z;
  paciente_id : Z;
  t_especialista_id : option Z;
  t_especialidad_id : Z;
  t_fecha : date;
  t_hora : time;
  estado : EstadoTurno
}.

(** The four tables the scheduling core reads. *)
Record DB : Type := {
  configuraciones : list ConfiguracionEspecialista;
  horarios : list HorarioAtencion;
  bloqueos : list BloqueoHorario;
  turnos : list Turno
}.

(** SQL [column == value] on a nullable integer column. *)
Definition col_eq (c : option Z) (v : Z) : bool :=
  match c with Some z => z =? v | None => false end.

(** SQL [column == True] on a nullable boolean column. *)
Definition col_true (c : option bool) : bool :=
  match c with Some b => b | None => false end.

(** ** Queries *)

(** [ConfiguracionEspecialista.query.filter_by(especialista_id=e).first()] *)
Definition query_config (db : DB) (especialista_id : Z)
  : option ConfiguracionEspecialista :=
  find (fun c => cfg_especialista_id c =? especialista_id) (configuraciones db).

(** ** [HorarioAtencion.generar_slots] *)

Fixpoint generar_slots_loop (fuel : nat) (db : DB) (self : HorarioAtencion)
  (duracion : Z) (hora_actual hora_limite : datetime)
  (slots : list (time * time)) : res (list (time * time)) :=
  if hora_actual <? hora_limite then
    match fuel with
    | O => NoFuel
    | S fuel' =>
      td <- timedelta_minutes duracion ;;
      hora_fin_slot <- dt_add hora_actual td ;;
      let slots' :=
        if hora_fin_slot <=? hora_limite
        then slots ++ [(time_of hora_actual, time_of hora_fin_slot)]
        else slots in
      let config := query_config db (h_especialista_id self) in
      let buffer :=
        match config with
        | Some c => tiempo_buffer_minutos c
        | None => Some 0
        end in
      tb <- timedelta_minutes_opt buffer ;;
      hora_actual' <- dt_add hora_fin_slot tb ;;
      generar_slots_loop fuel' db self duracion hora_actual' hora_limite slots'
    end
  else Ok slots.

Definition duracion_efectiva (db : DB) (self : HorarioAtencion) : Z :=
  if truthy_int (duracion_turno_custom self) then
    match duracion_turno_custom self with Some z => z | None => 0 end
  else
    match query_config db (h_especialista_id self) with
    | Some config => duracion_turno_minutos config
    | None => 30
    end.

Definition generar_slots (fuel : nat) (db : DB) (self : HorarioAtencion)
  (fecha : date) : res (list (time * time)) :=
  let duracion := duracion_efectiva db self in
  let hora_actual := combine fecha (h_hora_inicio self) in
  let hora_limite := combine fecha (h_hora_fin self) in
  generar_slots_loop fuel db self duracion hora_actual hora_limite [].

(** ** [GeneradorTurnos.obtener_slots_disponibles] ([turno_generator.py]) *)

(** One dictionary of the returned list. *)
Record Slot : Type := {
  hora_inicio : time;
  hora_fin : time;
  disponible : bool;
  turno_id : option Z
}.

Definition query_horarios (db : DB) (especialista_id especialidad_id dia : Z)
  : list HorarioAtencion :=
  filter (fun h =>
            (h_especialista_id h =? especialista_id)
            && (h_especialidad_id h =? especialidad_id)
            && (dia_semana h =? dia)
            && col_true (h_activo h))
         (horarios db).

Definition bloqueo_del_dia (especialista_id : Z) (fecha : date)
  (b : BloqueoHorario) : bool :=
  (b_especialista_id b =? especialista_id)
  && (fecha_inicio b <=? fecha)
  && (fecha_fin b >=? fecha)
  && col_true (b_activo b).

Definition query_bloqueos (db : DB) (especialista_id : Z) (fecha : date)
  : list BloqueoHorario :=
  filter (bloqueo_del_dia especialista_id fecha) (bloqueos db).

Definition turno_del_dia (especialista_id : Z) (fecha : date) (t : Turno) : bool :=
  col_eq (t_especialista_id t) especialista_id
  && (t_fecha t =? fecha)
  && estado_ocupa (estado t).

Definition count_turnos_del_dia (db : DB) (especialista_id : Z) (fecha : date) : Z :=
  Z.of_nat (List.length (filter (turno_del_dia especialista_id fecha) (turnos db))).

Definition turno_en_horario (especialista_id : Z) (fecha : date) (hora : time)
  (t : Turno) : bool :=
  col_eq (t_especialista_id t) especialista_id
  && (t_fecha t =? fecha)
  && (t_hora t =? hora)
  && estado_ocupa (estado t).

Definition query_turno_existente (db : DB) (especialista_id : Z) (fecha : date)
  (hora : time) : option Turno :=
  find (turno_en_horario especialista_id fecha hora) (turnos db).

(** The [for bloqueo in bloqueos] loop with its two [break]s: the value of
    [bloqueado] when the loop is left. *)
Fixpoint slot_bloqueado (bloqueos : list BloqueoHorario) (hora_inicio : time) : bool :=
  match bloqueos with
  | [] => false
  | bloqueo :: resto =>
    match b_hora_inicio bloqueo, b_hora_fin bloqueo with
    | Some b_ini, Some b_fin =>
      if (hora_inicio >=? b_ini) && (hora_inicio <? b_fin) then true
      else slot_bloqueado resto hora_inicio
    | _, _ => true
    end
  end.

(** The [for hora_inicio, hora_fin in slots] loop. *)
Fixpoint recorrer_slots (db : DB) (especialista_id : Z) (fecha : date)
  (bloqueos : list BloqueoHorario) (slots : list (time * time))
  (todos_slots : list Slot) : list Slot :=
  match slots with
  | [] => todos_slots
  | (hora_inicio, hora_fin) :: resto =>
    let todos_slots' :=
      if negb (slot_bloqueado bloqueos hora_inicio) then
        let turno_existente :=
          query_turno_existente db especialista_id fecha hora_inicio in
        todos_slots ++
          [ {| hora_inicio := hora_inicio;
               hora_fin := hora_fin;
               disponible := match turno_existente with None => true | Some _ => false end;
               turno_id := option_map t_id turno_existente |} ]
      else todos_slots in
    recorrer_slots db especialista_id fecha bloqueos resto todos_slots'
  end.

(** The [for horario in horarios] loop. *)
Fixpoint recorrer_horarios (fuel : nat) (db : DB) (especialista_id : Z)
  (fecha : date) (bloqueos : list BloqueoHorario)
  (horarios : list HorarioAtencion) (todos_slots : list Slot)
  : res (list Slot) :=
  match horarios with
  | [] => Ok todos_slots
  | horario :: resto =>
    slots <- generar_slots fuel db horario fecha ;;
    recorrer_horarios fuel db especialista_id fecha bloqueos resto
      (recorrer_slots db especialista_id fecha bloqueos slots todos_slots)
  end.

Definition obtener_slots_disponibles (fuel : nat) (db : DB)
  (especialista_id especialidad_id : Z) (fecha : date) : res (list Slot) :=
  let dia := weekday fecha in
  let horarios := query_horarios db especialista_id especialidad_id dia in
  match horarios with
  | [] => Ok []
  | _ :: _ =>
    let bloqueos := query_bloqueos db especialista_id fecha in
    match query_config db especialista_id with
    | None => Ok []
    | Some config =>
      let turnos_del_dia := count_turnos_del_dia db especialista_id fecha in
      if (turnos_del_dia >=? pacientes_maximos_dia config)
         && negb (truthy_bool (permite_sobreturnos config))
      then Ok []
      else recorrer_horarios fuel db especialista_id fecha bloqueos horarios []
    end
  end.

(** ** [GeneradorTurnos.validar_turno] ([turno_generator.py]) *)

Definition msg_no_atiende : string := "El especialista no atiende en ese horario".
Definition msg_bloqueado (b : BloqueoHorario) : string :=
  ("Horario bloqueado: " ++ str_opt (motivo b))%string.
Definition msg_ya_existe : string := "Ya existe un turno en ese horario".
Definition msg_cupo : string := "Cupo máximo diario alcanzado".
Definition msg_cupo_sobreturnos : string := "Cupo máximo de sobreturnos alcanzado".
Definition msg_valido : string := "Turno válido".

Definition query_horario_para (db : DB) (especialista_id especialidad_id dia : Z)
  (hora : time) : option HorarioAtencion :=
  find (fun h =>
          (h_especialista_id h =? especialista_id)
          && (h_especialidad_id h =? especialidad_id)
          && (dia_semana h =? dia)
          && (h_hora_inicio h <=? hora)
          && (h_hora_fin h >? hora)
          && col_true (h_activo h))
       (horarios db).

Definition query_primer_bloqueo (db : DB) (especialista_id : Z) (fecha : date)
  : option BloqueoHorario :=
  find (bloqueo_del_dia especialista_id fecha) (bloqueos db).

(** The test made on the block that was fetched: [Ok true] when the request is
    rejected by it.  [hora_inicio <= hora < hora_fin] compares [hora] with
    [hora_fin] only when the first comparison holds, and that comparison
    raises when [hora_fin] is [None]. *)
Definition bloqueo_rechaza (bloqueo : BloqueoHorario) (hora : time) : res bool :=
  match b_hora_inicio bloqueo with
  | None => Ok true
  | Some b_ini =>
    if b_ini <=? hora then
      match b_hora_fin bloqueo with
      | Some b_fin => Ok (hora <? b_fin)
      | None => Raise TypeError
      end
    else Ok false
  end.

Definition verificar_cupo (db : DB) (especialista_id : Z) (fecha : date)
  : res (bool * string) :=
  match query_config db especialista_id with
  | None => Ok (true, msg_valido)
  | Some config =>
    let turnos_del_dia := count_turnos_del_dia db especialista_id fecha in
    if turnos_del_dia >=? pacientes_maximos_dia config then
      if negb (truthy_bool (permite_sobreturnos config)) then
        Ok (false, msg_cupo)
      else
        match sobreturnos_maximos config with
        | None => Raise TypeError
        | Some extra =>
          if turnos_del_dia >=? pacientes_maximos_dia config + extra
          then Ok (false, msg_cupo_sobreturnos)
          else Ok (true, msg_valido)
        end
    else Ok (true, msg_valido)
  end.

Definition verificar_existente (db : DB) (especialista_id : Z) (fecha : date)
  (hora : time) : res (bool * string) :=
  match query_turno_existente db especialista_id fecha hora with
  | Some _ => Ok (false, msg_ya_existe)
  | None => verificar_cupo db especialista_id fecha
  end.

Definition validar_turno (db : DB) (especialista_id especialidad_id : Z)
  (fecha : date) (hora : time) : res (bool * string) :=
  let dia := weekday fecha in
  match query_horario_para db especialista_id especialidad_id dia hora with
  | None => Ok (false, msg_no_atiende)
  | Some _ =>
    match query_primer_bloqueo db especialista_id fecha with
    | Some bloqueo =>
      rechaza <- bloqueo_rechaza bloqueo hora ;;
      if rechaza : bool then Ok (false, msg_bloqueado bloqueo)
      else verificar_existente db especialista_id fecha hora
    | None => verificar_existente db especialista_id fecha hora
    end
  end.

(** ** The booking view [nuevo_turno] ([app.py]): its effect on the ledger

    The request carries the parsed form fields; [s_prepaga] is the value of
    [suscripcion and suscripcion.tiene_consultas_disponibles()].  The path
    modelled is the one on which no exception is raised (an exception rolls
    the session back and leaves the ledger as it was). *)

Record Solicitud : Type := {
  s_paciente_id : Z;
  s_especialista_id : Z;
  s_especialidad_id : Z;
  s_fecha : date;
  s_hora : time;
  s_prepaga : bool
}.

Inductive Respuesta : Type :=
| HorarioOcupado
| TurnoAgendado (id : Z).

(** The primary key given to a new row. *)
Definition siguiente_id (ts : list Turno) : Z :=
  1 + fold_right (fun t m => Z.max (t_id t) m) 0 ts.

(** [Turno.query.filter_by(especialista_id=.., fecha=.., hora=..,
    estado=EstadoTurno.PENDIENTE).first()] *)
Definition query_turno_pendiente (db : DB) (especialista_id : Z) (fecha : date)
  (hora : time) : option Turno :=
  find (fun t =>
          col_eq (t_especialista_id t) especialista_id
          && (t_fecha t =? fecha)
          && (t_hora t =? hora)
          && EstadoTurno_eqb (estado t) PENDIENTE)
       (turnos db).

Definition set_turnos (db : DB) (ts : list Turno) : DB :=
  {| configuraciones := configuraciones db;
     horarios := horarios db;
     bloqueos := bloqueos db;
     turnos := ts |}.

Definition nuevo_turno (db : DB) (req : Solicitud) : DB * Respuesta :=
  match query_turno_pendiente db (s_especialista_id req) (s_fecha req) (s_hora req) with
  | Some _ => (db, HorarioOcupado)
  | None =>
    let id := siguiente_id (turnos db) in
    let nuevo :=
      {| t_id := id;
         paciente_id := s_paciente_id req;
         t_especialista_id := Some (s_especialista_id req);
         t_especialidad_id := s_especialidad_id req;
         t_fecha := s_fecha req;
         t_hora := s_hora req;
         estado := if s_prepaga req then CONFIRMADO else PENDIENTE |} in
    (set_turnos db (turnos db ++ [nuevo]), TurnoAgendado id)
  end.

(** ** The slot sequence in the words of the specification

    With window start [s], window end [e], duration [d] and buffer [b]
    (minutes), slot number [k] is [(s + k(d+b), s + k(d+b) + d)], and the
    slots kept are those of [k = 0, 1, 2, ...] whose end is at most [e]. *)

Definition buffer_efectivo (db : DB) (self : HorarioAtencion) : option Z :=
  match query_config db (h_especialista_id self) with
  | Some config => tiempo_buffer_minutos config
  | None => Some 0
  end.

Definition spec_slot (s : time) (d b : Z) (k : Z) : time * time :=
  (s + k * ((d + b) * US_MINUTE), s + k * ((d + b) * US_MINUTE) + d * US_MINUTE).

Definition spec_cantidad (s e : time) (d b : Z) : Z :=
  if s + d * US_MINUTE <=? e
  then (e - s - d * US_MINUTE) / ((d + b) * US_MINUTE) + 1
  else 0.

Definition spec_slots (s e : time) (d b : Z) : list (time * time) :=
  map (fun k => spec_slot s d b (Z.of_nat k))
      (seq 0 (Z.to_nat (spec_cantidad s e d b))).

(** The dates and times on which the generator's datetime arithmetic stays
    inside Python's [datetime] range: the window lies within the day and one
    more duration and buffer after the window's end is still a datetime. *)
Definition en_rango (fecha : date) (self : HorarioAtencion) (d b : Z) : Prop :=
  MINORDINAL <= fecha
  /\ valid_time (h_hora_inicio self)
  /\ valid_time (h_hora_fin self)
  /\ combine fecha (h_hora_fin self) + (d + b) * US_MINUTE
     < (MAXORDINAL + 1) * US_DAY.

(** Fuel that is enough for any window inside one day. *)
Definition FUEL_DIA : nat := 1441.

(** ** Scenario of the specification: Monday 08:00-10:00, duration 30 *)

Module Escenario.

  (** 2024-01-01, a Monday. *)
Definition lunes : date := 738886.

Definition config (buffer : Z) : ConfiguracionEspecialista :=
    {| cfg_especialista_id := 1;
       duracion_turno_minutos := 30;
       pacientes_maximos_dia := 20;
       tiempo_buffer_minutos := Some buffer;
       permite_sobreturnos := Some false;
       sobreturnos_maximos := Some 0 |}.

Definition ventana : HorarioAtencion :=
    {| h_especialista_id := 1;
       h_especialidad_id := 7;
       dia_semana := 0;
       h_hora_inicio := hm 8 0;
       h_hora_fin := hm 10 0;
       duracion_turno_custom := None;
       h_activo := Some true |}.

Definition db (buffer : Z) : DB :=
    {| configuraciones := [config buffer];
       horarios := [ventana];
       bloqueos := [];
       turnos := [] |}.

End Escenario.

(** The effective duration in the words of the specification: the window's
    override if set, else the configured duration, else 30. *)
Definition spec_duracion (db : DB) (self : HorarioAtencion) : Z :=
  match duracion_turno_custom self with
  | Some override => override
  | None =>
    match query_config db (h_especialista_id self) with
    | Some config => duracion_turno_minutos config
    | None => 30
    end
  end.

(** Block exclusion in the words of the specification: a block with no time
    range covers every time, a block with both ends covers the times of
    [[time_start, time_end)]. *)
Definition spec_bloqueo_cubre (b : BloqueoHorario) (t : time) : bool :=
  match b_hora_inicio b, b_hora_fin b with
  | None, None => true
  | Some ini, Some fin => (ini <=? t) && (t <? fin)
  | _, _ => false
  end.

(** A block with exactly one of [hora_inicio], [hora_fin]. *)
Definition un_solo_extremo (b : BloqueoHorario) : bool :=
  match b_hora_inicio b, b_hora_fin b with
  | Some _, None | None, Some _ => true
  | _, _ => false
  end.

(** The generator returns a list for each of the windows. *)
Definition generan (fuel : nat) (db : DB) (fecha : date)
  (hs : list HorarioAtencion) : bool :=
  forallb (fun h => is_ok (generar_slots fuel db h fecha)) hs.

(** A returned slot that passed the block test. *)
Definition sin_bloqueo (bl : list BloqueoHorario) (s : Slot) : Prop :=
  slot_bloqueado bl (hora_inicio s) = false.

(** The occupying appointments of the ledger at one (specialist, date, time). *)
Definition ocupantes (db : DB) (especialista_id : Z) (fecha : date) (hora : time)
  : list Turno :=
  filter (turno_en_horario especialista_id fecha hora) (turnos db).

(** ** Concrete stores used to run the code *)

Module Ejemplos.

Definition lunes : date := Escenario.lunes.

Definition turno (id especialidad : Z) (hora : time) (e : EstadoTurno) : Turno :=
  {| t_id := id;
     paciente_id := 100 + id;
     t_especialista_id := Some 1;
     t_especialidad_id := especialidad;
     t_fecha := lunes;
     t_hora := hora;
     estado := e |}.

Definition bloqueo (ini fin : option time) (m : string) : BloqueoHorario :=
  {| b_especialista_id := 1;
     fecha_inicio := lunes;
     fecha_fin := lunes + 4;
     b_hora_inicio := ini;
     b_hora_fin := fin;
     motivo := Some m;
     b_activo := Some true |}.

(** Capacity 2 without overflow, two occupying appointments of another
    specialty, the whole window 08:00-10:00 of specialty 7 unbooked. *)
Definition db_cupo : DB :=
  {| configuraciones :=
       [ {| cfg_especialista_id := 1;
            duracion_turno_minutos := 30;
            pacientes_maximos_dia := 2;
            tiempo_buffer_minutos := Some 0;
            permite_sobreturnos := Some false;
            sobreturnos_maximos := Some 0 |} ];
     horarios := [Escenario.ventana];
     bloqueos := [];
     turnos := [turno 1 9 (hm 15 0) PENDIENTE; turno 2 9 (hm 15 30) CONFIRMADO] |}.

(** A window but no configuration record. *)
Definition db_sin_config : DB :=
  {| configuraciones := [];
     horarios := [Escenario.ventana];
     bloqueos := [];
     turnos := [] |}.

(** No configuration record and three occupying appointments that day. *)
Definition db_sin_config_lleno : DB :=
  {| configuraciones := [];
     horarios := [Escenario.ventana];
     bloqueos := [];
     turnos := [turno 1 7 (hm 8 0) PENDIENTE; turno 2 7 (hm 8 30) CONFIRMADO;
                turno 3 7 (hm 9 0) CONFIRMADO] |}.

(** A timed block 08:30-09:30. *)
Definition db_bloqueo_horario : DB :=
  {| configuraciones := [Escenario.config 0];
     horarios := [Escenario.ventana];
     bloqueos := [bloqueo (Some (hm 8 30)) (Some (hm 9 30)) "Reunion"];
     turnos := [turno 1 7 (hm 8 0) CONFIRMADO] |}.

(** A block that has a start time and no end time. *)
Definition db_bloqueo_un_extremo : DB :=
  {| configuraciones := [Escenario.config 0];
     horarios := [Escenario.ventana];
     bloqueos := [bloqueo (Some (hm 12 0)) (Some (hm 13 0)) "Almuerzo";
                  bloqueo (Some (hm 9 0)) None "Ausencia"];
     turnos := [] |}.

(** A timed block 12:00-13:00 retrieved first, then a full-day block. *)
Definition db_dos_bloqueos : DB :=
  {| configuraciones := [Escenario.config 0];
     horarios := [Escenario.ventana];
     bloqueos := [bloqueo (Some (hm 12 0)) (Some (hm 13 0)) "Almuerzo";
                  bloqueo None None "Vacaciones"];
     turnos := [] |}.

(** No configuration record and [n] occupying appointments that day. *)
Definition db_sin_config_n (n : nat) : DB :=
  {| configuraciones := [];
     horarios := [Escenario.ventana];
     bloqueos := [];
     turnos := repeat (turno 1 7 (hm 8 0) PENDIENTE) n |}.

(** Two requests for the same specialist, date and time; the first patient
    has a prepaid plan with consultations left. *)
Definition solicitud (paciente : Z) (prepaga : bool) : Solicitud :=
  {| s_paciente_id := paciente;
     s_especialista_id := 1;
     s_especialidad_id := 7;
     s_fecha := lunes;
     s_hora := hm 9 0;
     s_prepaga := prepaga |}.

Definition db_inicial : DB := Escenario.db 0.
Definition db_tras_primera : DB := fst (nuevo_turno db_inicial (solicitud 501 true)).
Definition db_tras_segunda : DB := fst (nuevo_turno db_tras_primera (solicitud 502 false)).

End Ejemplos.

(** ** Reading the engine's answer *)

(** The dictionary the engine builds for a candidate that passed the block
    test. *)
Definition slot_de (db : DB) (especialista_id : Z) (fecha : date)
  (p : time * time) : Slot :=
  {| hora_inicio := fst p;
     hora_fin := snd p;
     disponible :=
       match query_turno_existente db especialista_id fecha (fst p) with
       | None => true
       | Some _ => false
       end;
     turno_id :=
       option_map t_id (query_turno_existente db especialista_id fecha (fst p)) |}.

(** The dictionaries of one window: its candidates that no block stops, in
    the order they were generated. *)
Definition slots_de_ventana (db : DB) (especialista_id : Z) (fecha : date)
  (bl : list BloqueoHorario) (slots : list (time * time)) : list Slot :=
  map (slot_de db especialista_id fecha)
      (filter (fun p => negb (slot_bloqueado bl (fst p))) slots).

(** A generated pair lies in the window and lasts the duration. *)
Definition slot_en_ventana (self : HorarioAtencion) (d : Z) (p : time * time) : Prop :=
  h_hora_inicio self <= fst p
  /\ snd p <= h_hora_fin self
  /\ snd p = fst p + d * US_MINUTE.

(** A window the generator can expand: valid times, a positive duration and
    a buffer that is not negative. *)
Definition ventana_regular (db : DB) (self : HorarioAtencion) : Prop :=
  valid_time (h_hora_inicio self)
  /\ valid_time (h_hora_fin self)
  /\ 0 < duracion_efectiva db self
  /\ (forall b, buffer_efectivo db self = Some b -> 0 <= b).

(** The generator's lists for the windows, window by window. *)
Definition generados (fuel : nat) (db : DB) (fecha : date)
  (hs : list HorarioAtencion) (rs : list (list (time * time))) : Prop :=
  Forall2 (fun h r => generar_slots fuel db h fecha = Ok r) hs rs.

(** The capacity test of the engine lets the request through. *)
Definition cupo_abierto (db : DB) (especialista_id : Z) (fecha : date)
  (config : ConfiguracionEspecialista) : bool :=
  negb ((count_turnos_del_dia db especialista_id fecha >=? pacientes_maximos_dia config)
        && negb (truthy_bool (permite_sobreturnos config))).

(** ** [GeneradorTurnos.obtener_proximas_fechas_disponibles]

    [date.today()] is the argument [hoy]. *)

(** One dictionary of the returned list. *)
Record FechaDisponible : Type := {
  fd_fecha : date;
  fd_dia_semana : Z;
  slots_disponibles : Z;
  slots_totales : Z
}.

(** [timedelta(days=i)] for an [int], in days. *)
Definition timedelta_days (i : Z) : res Z :=
  if (- MAX_DELTA_DAYS <=? i) && (i <=? MAX_DELTA_DAYS)
  then Ok i else Raise OverflowError.

(** [date + timedelta] for a whole number of days. *)
Definition date_add (d : date) (dias : Z) : res date :=
  let r := d + dias in
  if (MINORDINAL <=? r) && (r <=? MAXORDINAL) then Ok r else Raise OverflowError.

(** [range(n)] *)
Definition range (n : Z) : list Z := map Z.of_nat (seq 0 (Z.to_nat n)).

(** The [for i in range(dias_adelante)] loop. *)
Fixpoint recorrer_fechas (fuel : nat) (db : DB)
  (especialista_id especialidad_id : Z) (fecha_actual : date)
  (indices : list Z) (fechas_disponibles : list FechaDisponible)
  : res (list FechaDisponible) :=
  match indices with
  | [] => Ok fechas_disponibles
  | i :: resto =>
    td <- timedelta_days i ;;
    fecha <- date_add fecha_actual td ;;
    slots <- obtener_slots_disponibles fuel db especialista_id especialidad_id fecha ;;
    let fechas_disponibles' :=
      if existsb disponible slots then
        fechas_disponibles ++
          [ {| fd_fecha := fecha;
               fd_dia_semana := weekday fecha;
               slots_disponibles := Z.of_nat (List.length (filter disponible slots));
               slots_totales := Z.of_nat (List.length slots) |} ]
      else fechas_disponibles in
    recorrer_fechas fuel db especialista_id especialidad_id fecha_actual resto
      fechas_disponibles'
  end.

Definition obtener_proximas_fechas_disponibles (fuel : nat) (db : DB)
  (especialista_id especialidad_id : Z) (hoy : date) (dias_adelante : Z)
  : res (list FechaDisponible) :=
  recorrer_fechas fuel db especialista_id especialidad_id hoy
    (range dias_adelante) [].

(** The date has a slot that the engine returns as available. *)
Definition tiene_disponible (fuel : nat) (db : DB)
  (especialista_id especialidad_id : Z) (fecha : date) : bool :=
  match obtener_slots_disponibles fuel db especialista_id especialidad_id fecha with
  | Ok slots => existsb disponible slots
  | _ => false
  end.

(** ** [SuscripcionPrepaga] ([models_prepaga.py]) *)

Inductive EstadoSuscripcion : Type :=
| SUSC_PENDIENTE | SUSC_ACTIVA | SUSC_SUSPENDIDA | SUSC_CANCELADA | SUSC_VENCIDA.

Definition es_activa (e : EstadoSuscripcion) : bool :=
  match e with SUSC_ACTIVA => true | _ => false end.

(** The columns the three methods read; both counters are nullable. *)
Record SuscripcionPrepaga : Type := {
  susc_estado : EstadoSuscripcion;
  consultas_consumidas : option Z;
  consultas_disponibles : option Z
}.

(** [a < b] and [a - b] on nullable integers raise on [None]. *)
Definition lt_opt (a b : option Z) : res bool :=
  match a, b with
  | Some x, Some y => Ok (x <? y)
  | _, _ => Raise TypeError
  end.

Definition sub_opt (a b : option Z) : res Z :=
  match a, b with
  | Some x, Some y => Ok (x - y)
  | _, _ => Raise TypeError
  end.

Definition tiene_consultas_disponibles (self : SuscripcionPrepaga) : res bool :=
  if negb (es_activa (susc_estado self)) then Ok false
  else lt_opt (consultas_consumidas self) (consultas_disponibles self).

(** The method mutates [self]: the new object comes with the answer. *)
Definition consumir_consulta (self : SuscripcionPrepaga)
  : res (SuscripcionPrepaga * bool) :=
  tiene <- tiene_consultas_disponibles self ;;
  if tiene : bool then
    match consultas_consumidas self with
    | Some c =>
      Ok ({| susc_estado := susc_estado self;
             consultas_consumidas := Some (c + 1);
             consultas_disponibles := consultas_disponibles self |}, true)
    | None => Raise TypeError
    end
  else Ok (self, false).

Definition consultas_restantes (self : SuscripcionPrepaga) : res Z :=
  r <- sub_opt (consultas_disponibles self) (consultas_consumidas self) ;;
  Ok (Z.max 0 r).

(** [n] calls of [consumir_consulta] in a row: the object left and how many
    of the calls answered [True]. *)
Fixpoint consumir_veces (n : nat) (self : SuscripcionPrepaga)
  : res (SuscripcionPrepaga * nat) :=
  match n with
  | O => Ok (self, O)
  | S n' =>
    r <- consumir_consulta self ;;
    r' <- consumir_veces n' (fst r) ;;
    Ok (fst r', ((if snd r then 1 else 0) + snd r')%nat)
  end.

(** ** [agregar_horario] ([admin_routes.py]): its effect on the windows

    The request carries the parsed form fields. *)

Record SolicitudHorario : Type := {
  sh_especialista_id : Z;
  sh_especialidad_id : Z;
  sh_dia_semana : Z;
  sh_hora_inicio : time;
  sh_hora_fin : time;
  sh_duracion_custom : option Z
}.

Inductive RespuestaHorario : Type :=
| HoraFinNoPosterior
| HorarioSolapado
| HorarioAgregado.

(** [not (hora_fin <= h.hora_inicio or hora_inicio >= h.hora_fin)] *)
Definition se_solapa (hora_inicio hora_fin : time) (h : HorarioAtencion) : bool :=
  negb ((hora_fin <=? h_hora_inicio h) || (hora_inicio >=? h_hora_fin h)).

Definition set_horarios (db : DB) (hs : list HorarioAtencion) : DB :=
  {| configuraciones := configuraciones db;
     horarios := hs;
     bloqueos := bloqueos db;
     turnos := turnos db |}.

Definition agregar_horario (db : DB) (req : SolicitudHorario)
  : DB * RespuestaHorario :=
  if sh_hora_fin req <=? sh_hora_inicio req then (db, HoraFinNoPosterior)
  else
    let horarios_existentes :=
      query_horarios db (sh_especialista_id req) (sh_especialidad_id req)
        (sh_dia_semana req) in
    if existsb (se_solapa (sh_hora_inicio req) (sh_hora_fin req)) horarios_existentes
    then (db, HorarioSolapado)
    else
      let horario :=
        {| h_especialista_id := sh_especialista_id req;
           h_especialidad_id := sh_especialidad_id req;
           dia_semana := sh_dia_semana req;
           h_hora_inicio := sh_hora_inicio req;
           h_hora_fin := sh_hora_fin req;
           duracion_turno_custom := sh_duracion_custom req;
           h_activo := Some true |} in
      (set_horarios db (horarios db ++ [horario]), HorarioAgregado).

(** Two windows that may live together: unless they are active windows of
    the same specialist, specialty and weekday, in which case one ends at or
    before the start of the other. *)
Definition compatibles (h1 h2 : HorarioAtencion) : Prop :=
  h_especialista_id h1 = h_especialista_id h2 ->
  h_especialidad_id h1 = h_especialidad_id h2 ->
  dia_semana h1 = dia_semana h2 ->
  col_true (h_activo h1) = true ->
  col_true (h_activo h2) = true ->
  h_hora_fin h1 <= h_hora_inicio h2 \/ h_hora_fin h2 <= h_hora_inicio h1.

(** No two active windows of one specialist, specialty and weekday overlap,
    and every active window ends after it starts. *)
Definition horarios_ordenados (hs : list HorarioAtencion) : Prop :=
  ForallOrdPairs compatibles hs
  /\ Forall (fun h => col_true (h_activo h) = true ->
                      h_hora_inicio h < h_hora_fin h) hs.

(** ** [cancelar_turno] ([app.py]): its effect on the ledger

    [user_id] is [session['user_id']]. *)

Inductive RespuestaCancelar : Type :=
| TurnoNoEncontrado
| SinPermiso
| YaRealizado
| TurnoCancelado.

(** [Turno.query.get(turno_id)] *)
Definition query_turno (db : DB) (turno_id : Z) : option Turno :=
  find (fun t => t_id t =? turno_id) (turnos db).

Definition con_estado (t : Turno) (e : EstadoTurno) : Turno :=
  {| t_id := t_id t;
     paciente_id := paciente_id t;
     t_especialista_id := t_especialista_id t;
     t_especialidad_id := t_especialidad_id t;
     t_fecha := t_fecha t;
     t_hora := t_hora t;
     estado := e |}.

(** The row fetched by its key gets the new state; the other rows are as
    they were. *)
Fixpoint set_estado (turno_id : Z) (e : EstadoTurno) (ts : list Turno) : list Turno :=
  match ts with
  | [] => []
  | t :: resto =>
    if t_id t =? turno_id then con_estado t e :: resto
    else t :: set_estado turno_id e resto
  end.

Definition cancelar_turno (db : DB) (user_id turno_id : Z)
  : DB * RespuestaCancelar :=
  match query_turno db turno_id with
  | None => (db, TurnoNoEncontrado)
  | Some turno =>
    if negb (paciente_id turno =? user_id) then (db, SinPermiso)
    else if EstadoTurno_eqb (estado turno) REALIZADO then (db, YaRealizado)
    else (set_turnos db (set_estado turno_id CANCELADO (turnos db)), TurnoCancelado)
  end.

(** ** [permission_required] ([permissions.py]) *)

Inductive RolUsuario : Type := PACIENTE | ESPECIALISTA | ADMIN | RECEPCION.

(** The dictionary [PERMISOS]: for each role, its resources and the actions
    allowed on each. *)
Definition PERMISOS (rol : RolUsuario) : list (string * list string) :=
  match rol with
  | ADMIN =>
    [ ("especialidades", ["crear"; "editar"; "eliminar"; "ver"]);
      ("especialistas", ["crear"; "editar"; "eliminar"; "ver"; "horarios"]);
      ("usuarios", ["crear"; "editar"; "eliminar"; "ver"]);
      ("turnos", ["ver"; "modificar"; "cancelar"; "crear"]);
      ("pagos", ["ver"; "aprobar"; "rechazar"; "marcar_abonado"]);
      ("movimientos", ["ver"; "crear"; "modificar"]);
      ("reportes", ["ver"; "exportar"]);
      ("configuracion", ["ver"; "modificar"]) ]
  | RECEPCION =>
    [ ("turnos", ["ver"; "crear"]);
      ("pagos", ["ver"; "marcar_abonado"]);
      ("pacientes", ["buscar"; "ver"]) ]
  | ESPECIALISTA =>
    [ ("turnos", ["ver_propios"; "atender"; "observaciones"]);
      ("pacientes", ["ver_asignados"]) ]
  | PACIENTE =>
    [ ("turnos", ["crear"; "ver_propios"; "cancelar_propios"]);
      ("pagos", ["ver_propios"; "subir_comprobante"]);
      ("historial", ["ver_propio"]) ]
  end%string.

(** [s.split(':')]: the pieces between the colons, one more than there are
    colons. *)
Fixpoint split_colon (s : string) : list string :=
  match s with
  | EmptyString => [EmptyString]
  | String c resto =>
    if Ascii.eqb c ":"%char then EmptyString :: split_colon resto
    else
      match split_colon resto with
      | [] => [String c EmptyString]
      | p :: ps => String c p :: ps
      end
  end.

(** [':' in s] *)
Fixpoint tiene_colon (s : string) : bool :=
  match s with
  | EmptyString => false
  | String c resto => Ascii.eqb c ":"%char || tiene_colon resto
  end.

(** [d.get(k)] on a dictionary with string keys. *)
Fixpoint dict_get {V : Type} (d : list (string * V)) (k : string) : option V :=
  match d with
  | [] => None
  | (k', v) :: resto => if String.eqb k' k then Some v else dict_get resto k
  end.

(** [x in l] on a list of strings. *)
Definition str_in (x : string) (l : list string) : bool :=
  existsb (String.eqb x) l.

(** The value of [tiene_permiso] after the loop over the requirements, or
    the [ValueError] of unpacking a split that has more than two pieces. *)
Inductive Permiso : Type := Concedido | Denegado | ValueError.

Fixpoint verificar_permisos (permisos_usuario : list (string * list string))
  (permisos_requeridos : list string) : Permiso :=
  match permisos_requeridos with
  | [] => Denegado
  | permiso :: resto =>
    if tiene_colon permiso then
      match split_colon permiso with
      | [recurso; accion] =>
        match dict_get permisos_usuario recurso with
        | Some acciones =>
          if str_in accion acciones then Concedido
          else verificar_permisos permisos_usuario resto
        | None => verificar_permisos permisos_usuario resto
        end
      | _ => ValueError
      end
    else verificar_permisos permisos_usuario resto
  end.

(** What the decorated view does. *)
Inductive Salida : Type :=
| RedirigeLogin
| RedirigeDashboardAdmin
| RedirigeDashboardUser
| LanzaValueError
| EjecutaVista.

(** [sesion] is [session.get('user_id')] and [usuarios] the key and role of
    the rows of the users table. *)
Definition permission_required (permisos_requeridos : list string)
  (sesion : option Z) (usuarios : list (Z * RolUsuario)) : Salida :=
  match sesion with
  | None => RedirigeLogin
  | Some user_id =>
    match find (fun u => fst u =? user_id) usuarios with
    | None => RedirigeLogin
    | Some usuario =>
      match verificar_permisos (PERMISOS (snd usuario)) permisos_requeridos with
      | Concedido => EjecutaVista
      | ValueError => LanzaValueError
      | Denegado =>
        match snd usuario with
        | ADMIN | RECEPCION => RedirigeDashboardAdmin
        | _ => RedirigeDashboardUser
        end
      end
    end
  end.

(** * Proofs *)

(** ** Python arithmetic that does not raise *)

Lemma timedelta_minutes_ok (m : Z) :
  - MAX_DELTA_DAYS * US_DAY <= m * US_MINUTE < (MAX_DELTA_DAYS + 1) * US_DAY ->
  timedelta_minutes m = Ok (m * US_MINUTE).
Proof.
  intros [Hlo Hhi]. unfold timedelta_minutes.
  apply Z.leb_le in Hlo. apply Z.ltb_lt in Hhi.
  rewrite Hlo, Hhi. reflexivity.
Qed.

Lemma dt_add_ok (x td : Z) :
  MINORDINAL * US_DAY <= x + td < (MAXORDINAL + 1) * US_DAY ->
  dt_add x td = Ok (x + td).
Proof.
  intros [Hlo Hhi]. unfold dt_add.
  apply Z.leb_le in Hlo. apply Z.ltb_lt in Hhi.
  rewrite Hlo, Hhi. reflexivity.
Qed.

Lemma time_of_combine (fecha : date) (t : Z) :
  0 <= t < US_DAY -> time_of (combine fecha t) = t.
Proof.
  intros Ht. unfold time_of, combine.
  rewrite Z.add_comm, Z.mod_add by (unfold US_DAY; lia).
  apply Z.mod_small. exact Ht.
Qed.

(** ** The [while] loop of [generar_slots] *)

Lemma generar_slots_loop_unfold fuel db self d actual limite slots :
  generar_slots_loop (S fuel) db self d actual limite slots =
  if actual <? limite then
    td <- timedelta_minutes d ;;
    fin <- dt_add actual td ;;
    tb <- timedelta_minutes_opt (buffer_efectivo db self) ;;
    actual' <- dt_add fin tb ;;
    generar_slots_loop fuel db self d actual' limite
      (if fin <=? limite then slots ++ [(time_of actual, time_of fin)] else slots)
  else Ok slots.
Proof. reflexivity. Qed.

Lemma generar_slots_loop_exit fuel db self d actual limite slots :
  limite <= actual ->
  generar_slots_loop fuel db self d actual limite slots = Ok slots.
Proof.
  intros H. apply Z.ltb_ge in H.
  destruct fuel; simpl; rewrite H; reflexivity.
Qed.

Lemma spec_cantidad_nonneg s e d b :
  0 < d -> 0 <= b -> 0 <= spec_cantidad s e d b.
Proof.
  intros Hd Hb. unfold spec_cantidad.
  destruct (Z.leb_spec (s + d * US_MINUTE) e) as [Hle | Hgt]; [ | lia ].
  assert (0 <= (e - s - d * US_MINUTE) / ((d + b) * US_MINUTE)).
  { apply Z.div_pos; unfold US_MINUTE in *; lia. }
  lia.
Qed.

(** [spec_cantidad] counts exactly the slots whose end is at most [e]. *)
Lemma spec_cantidad_iff s e d b k :
  0 < d -> 0 <= b -> 0 <= k ->
  (k < spec_cantidad s e d b <-> snd (spec_slot s d b k) <= e).
Proof.
  intros Hd Hb Hk. unfold spec_cantidad, spec_slot; simpl.
  assert (Hstep : 0 < (d + b) * US_MINUTE) by (unfold US_MINUTE; lia).
  assert (Hdur : 0 < d * US_MINUTE) by (unfold US_MINUTE; lia).
  set (step := (d + b) * US_MINUTE) in *. clearbody step.
  assert (Hks : 0 <= k * step) by (apply Z.mul_nonneg_nonneg; lia).
  destruct (Z.leb_spec (s + d * US_MINUTE) e) as [Hle | Hgt].
  - split; intros H.
    + assert (Hq : k <= (e - s - d * US_MINUTE) / step) by lia.
      assert (Hm : step * k <= step * ((e - s - d * US_MINUTE) / step))
        by (apply Z.mul_le_mono_nonneg_l; lia).
      pose proof (Z.mul_div_le (e - s - d * US_MINUTE) step Hstep). lia.
    + assert (Hq : k <= (e - s - d * US_MINUTE) / step)
        by (apply Z.div_le_lower_bound; lia).
      lia.
  - split; intros H; lia.
Qed.

Lemma spec_cantidad_le_dia s e d b :
  0 < d -> 0 <= b -> 0 <= s -> e < US_DAY ->
  spec_cantidad s e d b < 1441.
Proof.
  intros Hd Hb Hs He.
  destruct (Z.lt_ge_cases (spec_cantidad s e d b) 1441) as [ | Hge ]; [ assumption | ].
  exfalso.
  assert (H : snd (spec_slot s d b 1440) <= e)
    by (apply spec_cantidad_iff; lia).
  unfold spec_slot in H; cbn [snd] in H. unfold US_MINUTE, US_DAY in *. lia.
Qed.

Section GenerarSlots.

Variables (db : DB) (self : HorarioAtencion) (fecha : date) (d b : Z).
Hypothesis Hbuf : buffer_efectivo db self = Some b.
Hypothesis Hd : 0 < d.
Hypothesis Hb : 0 <= b.
Hypothesis Hrango : en_rango fecha self d b.

Let s := h_hora_inicio self.
Let e := h_hora_fin self.
Let paso := (d + b) * US_MINUTE.

Lemma generar_slots_loop_run (m : nat) : forall (k fuel : nat) acc,
    (k + m = Z.to_nat (spec_cantidad s e d b))%nat ->
    (m < fuel)%nat ->
    generar_slots_loop fuel db self d
      (combine fecha s + Z.of_nat k * paso) (combine fecha e) acc
    = Ok (acc ++ map (fun i => spec_slot s d b (Z.of_nat i)) (seq k m)).
  Proof.
    destruct Hrango as (Hf & [Hs0 Hs1] & [He0 He1] & Hmax).
    fold s in Hs0, Hs1. fold e in He0, He1, Hmax.
    pose proof (spec_cantidad_nonneg s e d b Hd Hb) as Hn0.
    assert (Hdur : 0 < d * US_MINUTE) by (unfold US_MINUTE; lia).
    assert (Hbuf0 : 0 <= b * US_MINUTE) by (unfold US_MINUTE; lia).
    assert (Hpaso : paso = d * US_MINUTE + b * US_MINUTE) by (unfold paso; lia).
    assert (Htd : timedelta_minutes d = Ok (d * US_MINUTE)).
    { apply timedelta_minutes_ok.
      unfold combine, MAX_DELTA_DAYS, MAXORDINAL, MINORDINAL, US_DAY in *. lia. }
    assert (Htb : timedelta_minutes_opt (buffer_efectivo db self) = Ok (b * US_MINUTE)).
    { rewrite Hbuf. apply timedelta_minutes_ok.
      unfold combine, MAX_DELTA_DAYS, MAXORDINAL, MINORDINAL, US_DAY in *. lia. }
    induction m as [ | m' IH ]; intros k fuel acc Hkm Hfuel.
    - (* no slot is left: at most one more turn of the loop, which adds nothing *)
      rewrite app_nil_r.
      destruct fuel as [ | fuel' ]; [ lia | ].
      assert (Hk : ~ Z.of_nat k < spec_cantidad s e d b) by lia.
      rewrite spec_cantidad_iff in Hk by lia.
      unfold spec_slot in Hk; cbn [snd] in Hk. fold paso in Hk.
      assert (Hkp : 0 <= Z.of_nat k * paso) by (apply Z.mul_nonneg_nonneg; lia).
      rewrite generar_slots_loop_unfold.
      destruct (Z.ltb_spec (combine fecha s + Z.of_nat k * paso) (combine fecha e))
        as [Hlt | Hge]; [ | reflexivity ].
      rewrite Htd; cbn [bind].
      rewrite dt_add_ok
        by (unfold combine, MAXORDINAL, MINORDINAL, US_DAY in *; lia).
      cbn [bind]. rewrite Htb; cbn [bind].
      rewrite dt_add_ok
        by (unfold combine, MAXORDINAL, MINORDINAL, US_DAY in *; lia).
      cbn [bind].
      replace (combine fecha s + Z.of_nat k * paso + d * US_MINUTE <=? combine fecha e)
        with false by (symmetry; apply Z.leb_gt; unfold combine in *; lia).
      apply generar_slots_loop_exit. unfold combine in *. lia.
    - (* slot [k] fits: it is appended and the cursor moves to slot [k+1] *)
      destruct fuel as [ | fuel' ]; [ lia | ].
      assert (Hk : Z.of_nat k < spec_cantidad s e d b) by lia.
      rewrite spec_cantidad_iff in Hk by lia.
      unfold spec_slot in Hk; cbn [snd] in Hk. fold paso in Hk.
      assert (Hkp : 0 <= Z.of_nat k * paso) by (apply Z.mul_nonneg_nonneg; lia).
      rewrite generar_slots_loop_unfold.
      replace (combine fecha s + Z.of_nat k * paso <? combine fecha e)
        with true by (symmetry; apply Z.ltb_lt; unfold combine; lia).
      rewrite Htd; cbn [bind].
      rewrite dt_add_ok
        by (unfold combine, MAXORDINAL, MINORDINAL, US_DAY in *; lia).
      cbn [bind]. rewrite Htb; cbn [bind].
      rewrite dt_add_ok
        by (unfold combine, MAXORDINAL, MINORDINAL, US_DAY in *; lia).
      cbn [bind].
      replace (combine fecha s + Z.of_nat k * paso + d * US_MINUTE <=? combine fecha e)
        with true by (symmetry; apply Z.leb_le; unfold combine; lia).
      replace (combine fecha s + Z.of_nat k * paso + d * US_MINUTE + b * US_MINUTE)
        with (combine fecha s + Z.of_nat (S k) * paso) by lia.
      rewrite (IH (S k) fuel') by lia.
      replace (combine fecha s + Z.of_nat k * paso)
        with (combine fecha (s + Z.of_nat k * paso)) by (unfold combine; lia).
      replace (combine fecha (s + Z.of_nat k * paso) + d * US_MINUTE)
        with (combine fecha (s + Z.of_nat k * paso + d * US_MINUTE))
        by (unfold combine; lia).
      rewrite !time_of_combine by lia.
      rewrite <- app_assoc. reflexivity.
  Qed.

  (** With enough fuel the generator returns the slots of the specification. *)
Lemma generar_slots_spec_slots (fuel : nat) :
    duracion_efectiva db self = d ->
    (Z.to_nat (spec_cantidad s e d b) < fuel)%nat ->
    generar_slots fuel db self fecha = Ok (spec_slots s e d b).
  Proof.
    intros Hdur Hfuel. unfold generar_slots. rewrite Hdur.
    pose proof (generar_slots_loop_run (Z.to_nat (spec_cantidad s e d b)) 0 fuel [])
      as H.
    cbn [Z.of_nat] in H. rewrite Z.mul_0_l, Z.add_0_r in H.
    apply H; [ reflexivity | exact Hfuel ].
  Qed.

Lemma generar_slots_fuel_dia (fuel : nat) :
    duracion_efectiva db self = d ->
    (FUEL_DIA <= fuel)%nat ->
    generar_slots fuel db self fecha = Ok (spec_slots s e d b).
  Proof.
    intros Hdur Hfuel. apply generar_slots_spec_slots; [ exact Hdur | ].
    destruct Hrango as (_ & [Hs0 _] & [_ He1] & _).
    pose proof (spec_cantidad_le_dia s e d b Hd Hb Hs0 He1).
    pose proof (spec_cantidad_nonneg s e d b Hd Hb).
    unfold FUEL_DIA in Hfuel. lia.
  Qed.

End GenerarSlots.

(** The duration the code uses is the one the specification describes
    whenever that one is not zero (an override of 0 is false in Python and
    falls back to the configuration). *)
Lemma duracion_efectiva_spec db self :
  spec_duracion db self <> 0 ->
  duracion_efectiva db self = spec_duracion db self.
Proof.
  unfold duracion_efectiva, spec_duracion, truthy_int.
  destruct (duracion_turno_custom self) as [z | ]; [ | reflexivity ].
  intros Hz. apply Z.eqb_neq in Hz. rewrite Hz. reflexivity.
Qed.

Lemma timedelta_minutes_cases (m : Z) :
  timedelta_minutes m = Ok (m * US_MINUTE)
  \/ timedelta_minutes m = Raise OverflowError.
Proof.
  unfold timedelta_minutes.
  destruct (_ && _); [ left | right ]; reflexivity.
Qed.

Lemma dt_add_cases (x td : Z) :
  dt_add x td = Ok (x + td) \/ dt_add x td = Raise OverflowError.
Proof.
  unfold dt_add.
  destruct (_ && _); [ left | right ]; reflexivity.
Qed.

(** Whatever the date, a positive duration and a buffer that is not negative
    make the loop stop: each turn moves the cursor by a minute at least. *)
Lemma generar_slots_loop_termina db self d limite :
  0 < d ->
  (forall b, buffer_efectivo db self = Some b -> 0 <= b) ->
  forall (fuel : nat) actual acc,
    limite - actual <= Z.of_nat fuel * US_MINUTE ->
    generar_slots_loop fuel db self d actual limite acc <> NoFuel.
Proof.
  intros Hd Hb. induction fuel as [ | fuel IH ]; intros actual acc Hfuel.
  - rewrite generar_slots_loop_exit by lia. discriminate.
  - rewrite generar_slots_loop_unfold.
    destruct (Z.ltb_spec actual limite) as [Hlt | Hge]; [ | discriminate ].
    destruct (timedelta_minutes_cases d) as [-> | ->]; cbn [bind];
      [ | discriminate ].
    destruct (dt_add_cases actual (d * US_MINUTE)) as [-> | ->]; cbn [bind];
      [ | discriminate ].
    destruct (buffer_efectivo db self) as [b | ] eqn:Hbuf; cbn [timedelta_minutes_opt];
      [ | discriminate ].
    specialize (Hb b eq_refl).
    destruct (timedelta_minutes_cases b) as [-> | ->]; cbn [bind];
      [ | discriminate ].
    destruct (dt_add_cases (actual + d * US_MINUTE) (b * US_MINUTE)) as [-> | ->];
      cbn [bind]; [ | discriminate ].
    apply IH. unfold US_MINUTE in *. lia.
Qed.

(** ** Slot generation: claims C4 and C8 *)

(** C4. For a weekly window with start [s], end [e], effective duration [d]
    (the override if set, else the configured duration, else 30; positive)
    and effective buffer [b] (the configured buffer, else 0; not negative),
    [generar_slots] returns exactly the ordered list of the pairs
    [(s + k(d+b), s + k(d+b) + d)] for [k = 0, 1, 2, ...] whose end is at
    most [e]: slot [k] is in the list if and only if its end is at most [e].
    In particular the window 08:00-10:00 with [d = 30] gives four slots when
    [b = 0] and the three slots 08:00-08:30, 08:40-09:10, 09:20-09:50 when
    [b = 10]. *)
Theorem generar_slots_exact :
  (forall db self fecha d b fuel,
      spec_duracion db self = d ->
      buffer_efectivo db self = Some b ->
      0 < d -> 0 <= b ->
      en_rango fecha self d b ->
      (FUEL_DIA <= fuel)%nat ->
      generar_slots fuel db self fecha
      = Ok (spec_slots (h_hora_inicio self) (h_hora_fin self) d b)
      /\ (forall k, 0 <= k ->
            (k < spec_cantidad (h_hora_inicio self) (h_hora_fin self) d b
             <-> snd (spec_slot (h_hora_inicio self) d b k) <= h_hora_fin self)))
  /\ generar_slots FUEL_DIA (Escenario.db 0) Escenario.ventana Escenario.lunes
     = Ok [ (hm 8 0, hm 8 30); (hm 8 30, hm 9 0);
            (hm 9 0, hm 9 30); (hm 9 30, hm 10 0) ]
  /\ generar_slots FUEL_DIA (Escenario.db 10) Escenario.ventana Escenario.lunes
     = Ok [ (hm 8 0, hm 8 30); (hm 8 40, hm 9 10); (hm 9 20, hm 9 50) ].
Proof.
  split; [ | split; vm_compute; reflexivity ].
  intros db self fecha d b fuel Hdur Hbuf Hd Hb Hrango Hfuel. split.
  - apply generar_slots_fuel_dia; try assumption.
    rewrite duracion_efectiva_spec; lia.
  - intros k Hk. apply spec_cantidad_iff; assumption.
Qed.

Lemma generar_slots_exact_witness :
  generar_slots FUEL_DIA (Escenario.db 10) Escenario.ventana Escenario.lunes
  = Ok (spec_slots (hm 8 0) (hm 10 0) 30 10)
  /\ (forall k, 0 <= k ->
        (k < spec_cantidad (hm 8 0) (hm 10 0) 30 10
         <-> snd (spec_slot (hm 8 0) 30 10 k) <= hm 10 0)).
Proof.
  apply (proj1 generar_slots_exact (Escenario.db 10) Escenario.ventana
               Escenario.lunes 30 10 FUEL_DIA).
  - reflexivity.
  - reflexivity.
  - lia.
  - lia.
  - unfold en_rango, valid_time. vm_compute. intuition discriminate.
  - apply Nat.le_refl.
Defined.

(** C8. For a weekly window whose effective duration is positive and whose
    effective buffer is not negative, [generar_slots] terminates on every
    date (with enough fuel the loop has finished), and on the dates of
    [en_rango] it returns a list; the list is the same at every call, since
    the result is a function of the store, the window and the date alone. *)
Theorem generar_slots_termina :
  forall db self fecha d b,
    spec_duracion db self = d ->
    buffer_efectivo db self = Some b ->
    0 < d -> 0 <= b ->
    (exists n : nat, forall fuel, (n <= fuel)%nat ->
        generar_slots fuel db self fecha <> NoFuel)
    /\ (en_rango fecha self d b ->
        exists l, forall fuel, (FUEL_DIA <= fuel)%nat ->
          generar_slots fuel db self fecha = Ok l).
Proof.
  intros db self fecha d b Hdur Hbuf Hd Hb. split.
  - exists (Z.to_nat (combine fecha (h_hora_fin self)
                      - combine fecha (h_hora_inicio self))).
    intros fuel Hfuel. unfold generar_slots.
    rewrite duracion_efectiva_spec by lia. rewrite Hdur.
    apply generar_slots_loop_termina.
    + exact Hd.
    + intros b' Hb'. rewrite Hbuf in Hb'. injection Hb' as <-. exact Hb.
    + unfold US_MINUTE. lia.
  - intros Hrango.
    exists (spec_slots (h_hora_inicio self) (h_hora_fin self) d b).
    intros fuel Hfuel.
    apply generar_slots_fuel_dia; try assumption.
    rewrite duracion_efectiva_spec; lia.
Qed.

Lemma generar_slots_termina_witness :
  (exists n : nat, forall fuel, (n <= fuel)%nat ->
      generar_slots fuel (Escenario.db 10) Escenario.ventana Escenario.lunes
      <> NoFuel)
  /\ (exists l, forall fuel, (FUEL_DIA <= fuel)%nat ->
        generar_slots fuel (Escenario.db 10) Escenario.ventana Escenario.lunes
        = Ok l).
Proof.
  assert (H : spec_duracion (Escenario.db 10) Escenario.ventana = 30
              /\ buffer_efectivo (Escenario.db 10) Escenario.ventana = Some 10
              /\ 0 < 30 /\ 0 <= 10).
  { repeat split; try reflexivity; lia. }
  destruct H as (H1 & H2 & H3 & H4).
  pose proof (generar_slots_termina (Escenario.db 10) Escenario.ventana
                Escenario.lunes 30 10 H1 H2 H3 H4) as [Hfin Hlista].
  split; [ exact Hfin | ].
  apply Hlista.
  unfold en_rango, valid_time. vm_compute. intuition discriminate.
Defined.

(** ** The block test of the availability engine *)

Lemma query_bloqueos_In db especialista_id fecha b :
  In b (query_bloqueos db especialista_id fecha)
  <-> In b (bloqueos db) /\ bloqueo_del_dia especialista_id fecha b = true.
Proof. unfold query_bloqueos. apply filter_In. Qed.

(** A slot that the loop lets through is covered by none of the blocks, and
    every block it was tested against has both of its times. *)
Lemma slot_bloqueado_false bl t :
  slot_bloqueado bl t = false ->
  forall b, In b bl ->
    spec_bloqueo_cubre b t = false /\ un_solo_extremo b = false.
Proof.
  induction bl as [ | b0 bl IH ]; intros Hfalse b Hin; [ contradiction | ].
  cbn [slot_bloqueado] in Hfalse.
  destruct (b_hora_inicio b0) as [ini | ] eqn:Hini;
    destruct (b_hora_fin b0) as [fin | ] eqn:Hfin; try discriminate.
  destruct ((t >=? ini) && (t <? fin)) eqn:Hcubre; [ discriminate | ].
  destruct Hin as [<- | Hin]; [ | apply IH; assumption ].
  unfold spec_bloqueo_cubre, un_solo_extremo. rewrite Hini, Hfin.
  rewrite Z.geb_leb in Hcubre. split; [ exact Hcubre | reflexivity ].
Qed.

(** One block without both of its times blocks every slot, wherever it is in
    the list. *)
Lemma slot_bloqueado_sin_rango bl b t :
  In b bl ->
  b_hora_inicio b = None \/ b_hora_fin b = None ->
  slot_bloqueado bl t = true.
Proof.
  induction bl as [ | b0 bl IH ]; intros Hin Hnone; [ contradiction | ].
  cbn [slot_bloqueado].
  destruct (b_hora_inicio b0) as [ini | ] eqn:Hini;
    destruct (b_hora_fin b0) as [fin | ] eqn:Hfin; try reflexivity.
  destruct ((t >=? ini) && (t <? fin)); [ reflexivity | ].
  destruct Hin as [<- | Hin]; [ | apply IH; assumption ].
  destruct Hnone; congruence.
Qed.

Lemma recorrer_slots_sin_bloqueo db eid fecha bl slots :
  forall acc, Forall (sin_bloqueo bl) acc ->
    Forall (sin_bloqueo bl) (recorrer_slots db eid fecha bl slots acc).
Proof.
  induction slots as [ | [ini fin] slots IH ]; intros acc Hacc; [ exact Hacc | ].
  cbn [recorrer_slots]. apply IH.
  destruct (slot_bloqueado bl ini) eqn:Hb; cbn [negb]; [ exact Hacc | ].
  apply Forall_app. split; [ exact Hacc | ].
  constructor; [ exact Hb | constructor ].
Qed.

Lemma recorrer_slots_todo_bloqueado db eid fecha bl slots :
  (forall t, slot_bloqueado bl t = true) ->
  forall acc, recorrer_slots db eid fecha bl slots acc = acc.
Proof.
  intros Hall. induction slots as [ | [ini fin] slots IH ]; intros acc;
    [ reflexivity | ].
  cbn [recorrer_slots]. rewrite Hall. cbn [negb]. apply IH.
Qed.

Lemma recorrer_horarios_sin_bloqueo fuel db eid fecha bl hs :
  forall acc l,
    Forall (sin_bloqueo bl) acc ->
    recorrer_horarios fuel db eid fecha bl hs acc = Ok l ->
    Forall (sin_bloqueo bl) l.
Proof.
  induction hs as [ | h hs IH ]; intros acc l Hacc Hrun; cbn [recorrer_horarios] in Hrun.
  - injection Hrun as <-. exact Hacc.
  - destruct (generar_slots fuel db h fecha) as [slots | | ]; cbn [bind] in Hrun;
      try discriminate.
    eapply IH; [ | exact Hrun ].
    apply recorrer_slots_sin_bloqueo. exact Hacc.
Qed.

Lemma recorrer_horarios_todo_bloqueado fuel db eid fecha bl hs :
  (forall t, slot_bloqueado bl t = true) ->
  forall acc,
    (forall l, recorrer_horarios fuel db eid fecha bl hs acc = Ok l -> l = acc)
    /\ (generan fuel db fecha hs = true ->
        recorrer_horarios fuel db eid fecha bl hs acc = Ok acc).
Proof.
  intros Hall. induction hs as [ | h hs IH ]; intros acc; cbn [recorrer_horarios].
  - split; [ intros l H; injection H as <-; reflexivity | reflexivity ].
  - cbn [generan forallb]. fold (generan fuel db fecha hs).
    destruct (generar_slots fuel db h fecha) as [slots | | ]; cbn [bind is_ok].
    + rewrite recorrer_slots_todo_bloqueado by exact Hall.
      destruct (IH acc) as [H1 H2].
      split; [ exact H1 | intros Hg; apply H2; exact Hg ].
    + split; [ discriminate | discriminate ].
    + split; [ discriminate | discriminate ].
Qed.

(** The engine returns whenever the generator returns for each window. *)
Lemma recorrer_horarios_retorna fuel db eid fecha bl hs :
  generan fuel db fecha hs = true ->
  forall acc, exists l, recorrer_horarios fuel db eid fecha bl hs acc = Ok l.
Proof.
  induction hs as [ | h hs IH ]; intros Hg acc; cbn [recorrer_horarios].
  - exists acc. reflexivity.
  - cbn [generan forallb] in Hg. fold (generan fuel db fecha hs) in Hg.
    apply andb_true_iff in Hg. destruct Hg as [Hh Hhs].
    destruct (generar_slots fuel db h fecha) as [slots | | ]; try discriminate.
    cbn [bind]. apply IH. exact Hhs.
Qed.

Lemma obtener_slots_disponibles_retorna fuel db eid espid fecha :
  generan fuel db fecha (query_horarios db eid espid (weekday fecha)) = true ->
  exists l, obtener_slots_disponibles fuel db eid espid fecha = Ok l.
Proof.
  intros Hg. unfold obtener_slots_disponibles.
  destruct (query_horarios db eid espid (weekday fecha)) as [ | h hs ] eqn:Hq;
    [ exists []; reflexivity | ].
  destruct (query_config db eid) as [config | ]; [ | exists []; reflexivity ].
  destruct (_ && _); [ exists []; reflexivity | ].
  apply recorrer_horarios_retorna. exact Hg.
Qed.

Lemma obtener_slots_disponibles_sin_bloqueo fuel db eid espid fecha l :
  obtener_slots_disponibles fuel db eid espid fecha = Ok l ->
  Forall (sin_bloqueo (query_bloqueos db eid fecha)) l.
Proof.
  unfold obtener_slots_disponibles.
  destruct (query_horarios db eid espid (weekday fecha)) as [ | h hs ];
    [ intros H; injection H as <-; constructor | ].
  destruct (query_config db eid) as [config | ];
    [ | intros H; injection H as <-; constructor ].
  destruct (_ && _); [ intros H; injection H as <-; constructor | ].
  apply recorrer_horarios_sin_bloqueo. constructor.
Qed.

Lemma obtener_slots_disponibles_todo_bloqueado fuel db eid espid fecha :
  (forall t, slot_bloqueado (query_bloqueos db eid fecha) t = true) ->
  (forall l, obtener_slots_disponibles fuel db eid espid fecha = Ok l -> l = [])
  /\ (generan fuel db fecha (query_horarios db eid espid (weekday fecha)) = true ->
      obtener_slots_disponibles fuel db eid espid fecha = Ok []).
Proof.
  intros Hall. unfold obtener_slots_disponibles.
  destruct (query_horarios db eid espid (weekday fecha)) as [ | h hs ];
    [ split; [ intros l H; injection H as <-; reflexivity | reflexivity ] | ].
  destruct (query_config db eid) as [config | ];
    [ | split; [ intros l H; injection H as <-; reflexivity | reflexivity ] ].
  destruct (_ && _);
    [ split; [ intros l H; injection H as <-; reflexivity | reflexivity ] | ].
  apply recorrer_horarios_todo_bloqueado. exact Hall.
Qed.

(** Without a configuration row the engine returns before any loop. *)
Lemma obtener_slots_disponibles_sin_config fuel db eid espid fecha :
  query_config db eid = None ->
  obtener_slots_disponibles fuel db eid espid fecha = Ok [].
Proof.
  intros Hcfg. unfold obtener_slots_disponibles.
  destruct (query_horarios db eid espid (weekday fecha)); [ reflexivity | ].
  rewrite Hcfg. reflexivity.
Qed.

(** ** The availability engine: claims C5, C6, C7 and C10 *)

(** C5. If the occupying appointments (PENDIENTE or CONFIRMADO) of the
    specialist on the date, counted over all specialties, are at least
    [pacientes_maximos_dia] and the configuration does not allow overflow,
    [obtener_slots_disponibles] returns the empty list, whatever windows,
    blocks and bookings there are. *)
Theorem obtener_slots_cupo_agotado :
  forall fuel db especialista_id especialidad_id fecha config,
    query_config db especialista_id = Some config ->
    Z.of_nat (List.length
                (filter (fun t => col_eq (t_especialista_id t) especialista_id
                                  && (t_fecha t =? fecha)
                                  && estado_ocupa (estado t))
                        (turnos db)))
    >= pacientes_maximos_dia config ->
    truthy_bool (permite_sobreturnos config) = false ->
    obtener_slots_disponibles fuel db especialista_id especialidad_id fecha = Ok [].
Proof.
  intros fuel db eid espid fecha config Hcfg Hcount Hsobre.
  unfold obtener_slots_disponibles.
  destruct (query_horarios db eid espid (weekday fecha)); [ reflexivity | ].
  rewrite Hcfg, Hsobre. cbn [negb].
  replace (count_turnos_del_dia db eid fecha >=? pacientes_maximos_dia config)
    with true; [ reflexivity | ].
  symmetry. rewrite Z.geb_leb. apply Z.leb_le.
  unfold count_turnos_del_dia, turno_del_dia. lia.
Qed.

Lemma obtener_slots_cupo_agotado_witness :
  obtener_slots_disponibles FUEL_DIA Ejemplos.db_cupo 1 7 Ejemplos.lunes = Ok []
  /\ generar_slots FUEL_DIA Ejemplos.db_cupo Escenario.ventana Ejemplos.lunes
     = Ok [ (hm 8 0, hm 8 30); (hm 8 30, hm 9 0);
            (hm 9 0, hm 9 30); (hm 9 30, hm 10 0) ].
Proof.
  split.
  - apply (obtener_slots_cupo_agotado FUEL_DIA Ejemplos.db_cupo 1 7 Ejemplos.lunes
             {| cfg_especialista_id := 1;
                duracion_turno_minutos := 30;
                pacientes_maximos_dia := 2;
                tiempo_buffer_minutos := Some 0;
                permite_sobreturnos := Some false;
                sobreturnos_maximos := Some 0 |}).
    + reflexivity.
    + vm_compute. discriminate.
    + reflexivity.
  - vm_compute. reflexivity.
Defined.

(** C6. In the list returned by [obtener_slots_disponibles] no slot starts at
    a time covered by an active block of the specialist that overlaps the
    date, be it a full-day block or a timed block whose
    [[hora_inicio, hora_fin)] contains the slot's start: such a candidate is
    left out, it is not returned as unavailable.  So with a full-day block
    on the date the list returned is empty.  The engine does return a list
    whenever the generator returns one for each window. *)
Theorem obtener_slots_excluye_bloqueados :
  forall fuel db especialista_id especialidad_id fecha,
    (forall l,
        obtener_slots_disponibles fuel db especialista_id especialidad_id fecha = Ok l ->
        (forall s b,
            In s l -> In b (bloqueos db) ->
            bloqueo_del_dia especialista_id fecha b = true ->
            spec_bloqueo_cubre b (hora_inicio s) = false)
        /\ ((exists b,
               In b (bloqueos db)
               /\ bloqueo_del_dia especialista_id fecha b = true
               /\ b_hora_inicio b = None /\ b_hora_fin b = None) ->
            l = []))
    /\ (generan fuel db fecha
          (query_horarios db especialista_id especialidad_id (weekday fecha)) = true ->
        exists l,
          obtener_slots_disponibles fuel db especialista_id especialidad_id fecha = Ok l).
Proof.
  intros fuel db eid espid fecha. split.
  - intros l Hrun. split.
    + intros s b Hs Hb Hdia.
      pose proof (obtener_slots_disponibles_sin_bloqueo _ _ _ _ _ _ Hrun) as Hall.
      rewrite Forall_forall in Hall. specialize (Hall s Hs).
      apply (slot_bloqueado_false _ _ Hall b).
      apply query_bloqueos_In. split; assumption.
    + intros (b & Hb & Hdia & Hini & Hfin).
      apply (obtener_slots_disponibles_todo_bloqueado fuel db eid espid fecha);
        [ | exact Hrun ].
      intros t. apply (slot_bloqueado_sin_rango _ b).
      * apply query_bloqueos_In. split; assumption.
      * left. exact Hini.
  - apply obtener_slots_disponibles_retorna.
Qed.

Lemma obtener_slots_excluye_bloqueados_witness :
  obtener_slots_disponibles FUEL_DIA Ejemplos.db_bloqueo_horario 1 7 Ejemplos.lunes
  = Ok [ {| hora_inicio := hm 8 0; hora_fin := hm 8 30;
            disponible := false; turno_id := Some 1 |};
         {| hora_inicio := hm 9 30; hora_fin := hm 10 0;
            disponible := true; turno_id := None |} ]
  /\ (forall s b,
        In s [ {| hora_inicio := hm 8 0; hora_fin := hm 8 30;
                  disponible := false; turno_id := Some 1 |};
               {| hora_inicio := hm 9 30; hora_fin := hm 10 0;
                  disponible := true; turno_id := None |} ] ->
        In b (bloqueos Ejemplos.db_bloqueo_horario) ->
        bloqueo_del_dia 1 Ejemplos.lunes b = true ->
        spec_bloqueo_cubre b (hora_inicio s) = false)
  /\ obtener_slots_disponibles FUEL_DIA Ejemplos.db_dos_bloqueos 1 7 Ejemplos.lunes
     = Ok [].
Proof.
  assert (Hrun : obtener_slots_disponibles FUEL_DIA Ejemplos.db_bloqueo_horario 1 7
                   Ejemplos.lunes
                 = Ok [ {| hora_inicio := hm 8 0; hora_fin := hm 8 30;
                           disponible := false; turno_id := Some 1 |};
                        {| hora_inicio := hm 9 30; hora_fin := hm 10 0;
                           disponible := true; turno_id := None |} ])
    by (vm_compute; reflexivity).
  split; [ exact Hrun | split ].
  - exact (proj1 (proj1 (obtener_slots_excluye_bloqueados FUEL_DIA
                           Ejemplos.db_bloqueo_horario 1 7 Ejemplos.lunes)
                        _ Hrun)).
  - destruct (proj2 (obtener_slots_excluye_bloqueados FUEL_DIA
                       Ejemplos.db_dos_bloqueos 1 7 Ejemplos.lunes))
      as [l Hl]; [ vm_compute; reflexivity | ].
    rewrite Hl. f_equal.
    apply (proj2 (proj1 (obtener_slots_excluye_bloqueados FUEL_DIA
                           Ejemplos.db_dos_bloqueos 1 7 Ejemplos.lunes)
                        l Hl)).
    exists (Ejemplos.bloqueo None None "Vacaciones").
    repeat split; try reflexivity. right. left. reflexivity.
Defined.

(** C7. With no [ConfiguracionEspecialista] row for the specialist,
    [obtener_slots_disponibles] returns the empty list for every specialty
    and date, raising nothing and running no loop, whatever windows, blocks
    and bookings there are. *)
Theorem obtener_slots_sin_configuracion :
  forall fuel db especialista_id especialidad_id fecha,
    query_config db especialista_id = None ->
    obtener_slots_disponibles fuel db especialista_id especialidad_id fecha = Ok [].
Proof.
  intros fuel db eid espid fecha Hcfg.
  apply obtener_slots_disponibles_sin_config. exact Hcfg.
Qed.

Lemma obtener_slots_sin_configuracion_witness :
  obtener_slots_disponibles 0 Ejemplos.db_sin_config 1 7 Ejemplos.lunes = Ok []
  /\ query_horarios Ejemplos.db_sin_config 1 7 (weekday Ejemplos.lunes)
     = [Escenario.ventana].
Proof.
  split.
  - apply (obtener_slots_sin_configuracion 0 Ejemplos.db_sin_config 1 7 Ejemplos.lunes).
    reflexivity.
  - reflexivity.
Defined.

(** C10. In [obtener_slots_disponibles] an active block that overlaps the
    date and has exactly one of [hora_inicio], [hora_fin] acts as a full-day
    block: it blocks every candidate start time, so the list returned is
    empty, and it is returned whenever the generator returns for each
    window.  The block is neither refused nor applied as a time range. *)
Theorem obtener_slots_bloqueo_un_extremo :
  forall fuel db especialista_id especialidad_id fecha b,
    In b (bloqueos db) ->
    bloqueo_del_dia especialista_id fecha b = true ->
    un_solo_extremo b = true ->
    (forall t, slot_bloqueado (query_bloqueos db especialista_id fecha) t = true)
    /\ (forall l,
          obtener_slots_disponibles fuel db especialista_id especialidad_id fecha = Ok l ->
          l = [])
    /\ (generan fuel db fecha
          (query_horarios db especialista_id especialidad_id (weekday fecha)) = true ->
        obtener_slots_disponibles fuel db especialista_id especialidad_id fecha = Ok []).
Proof.
  intros fuel db eid espid fecha b Hb Hdia Huno.
  assert (Hall : forall t, slot_bloqueado (query_bloqueos db eid fecha) t = true).
  { intros t. apply (slot_bloqueado_sin_rango _ b).
    - apply query_bloqueos_In. split; assumption.
    - unfold un_solo_extremo in Huno.
      destruct (b_hora_inicio b), (b_hora_fin b); try discriminate; auto. }
  split; [ exact Hall | ].
  apply obtener_slots_disponibles_todo_bloqueado. exact Hall.
Qed.

Lemma obtener_slots_bloqueo_un_extremo_witness :
  (forall t, slot_bloqueado
               (query_bloqueos Ejemplos.db_bloqueo_un_extremo 1 Ejemplos.lunes) t = true)
  /\ (forall l,
        obtener_slots_disponibles FUEL_DIA Ejemplos.db_bloqueo_un_extremo 1 7
          Ejemplos.lunes = Ok l -> l = [])
  /\ obtener_slots_disponibles FUEL_DIA Ejemplos.db_bloqueo_un_extremo 1 7
       Ejemplos.lunes = Ok [].
Proof.
  pose proof (obtener_slots_bloqueo_un_extremo FUEL_DIA
                Ejemplos.db_bloqueo_un_extremo 1 7 Ejemplos.lunes
                (Ejemplos.bloqueo (Some (hm 9 0)) None "Ausencia")) as H.
  destruct H as (H1 & H2 & H3).
  - right. left. reflexivity.
  - reflexivity.
  - reflexivity.
  - split; [ exact H1 | split; [ exact H2 | ] ].
    apply H3. vm_compute. reflexivity.
Defined.

(** ** The validator: claims C9 and C3 *)

Lemma find_filter_nil {A : Type} (f : A -> bool) (l : list A) :
  filter f l = [] -> find f l = None.
Proof.
  induction l as [ | a l IH ]; [ reflexivity | ].
  cbn [filter find]. destruct (f a); [ discriminate | exact IH ].
Qed.

(** What the validator does with the block it fetched: the first active
    block of the specialist that overlaps the date decides alone. *)
Lemma validar_turno_primer_bloqueo db eid espid fecha hora h b :
  query_horario_para db eid espid (weekday fecha) hora = Some h ->
  query_primer_bloqueo db eid fecha = Some b ->
  validar_turno db eid espid fecha hora =
  (rechaza <- bloqueo_rechaza b hora ;;
   if rechaza : bool then Ok (false, msg_bloqueado b)
   else verificar_existente db eid fecha hora).
Proof.
  intros Hh Hb. unfold validar_turno. rewrite Hh, Hb. reflexivity.
Qed.

Lemma ejemplo_sin_config_n (n : nat) :
  count_turnos_del_dia (Ejemplos.db_sin_config_n n) 1 Ejemplos.lunes = Z.of_nat n
  /\ query_turno_existente (Ejemplos.db_sin_config_n n) 1 Ejemplos.lunes (hm 9 30)
     = None.
Proof.
  unfold count_turnos_del_dia, query_turno_existente, Ejemplos.db_sin_config_n.
  cbn [turnos].
  induction n as [ | n [IHc IHq] ]; [ split; reflexivity | ].
  cbn [repeat]. split.
  - change (filter (turno_del_dia 1 Ejemplos.lunes)
              (Ejemplos.turno 1 7 (hm 8 0) PENDIENTE
                 :: repeat (Ejemplos.turno 1 7 (hm 8 0) PENDIENTE) n))
      with (Ejemplos.turno 1 7 (hm 8 0) PENDIENTE
              :: filter (turno_del_dia 1 Ejemplos.lunes)
                   (repeat (Ejemplos.turno 1 7 (hm 8 0) PENDIENTE) n)).
    cbn [List.length]. rewrite Nat2Z.inj_succ, IHc, Nat2Z.inj_succ. reflexivity.
  - change (find (turno_en_horario 1 Ejemplos.lunes (hm 9 30))
              (Ejemplos.turno 1 7 (hm 8 0) PENDIENTE
                 :: repeat (Ejemplos.turno 1 7 (hm 8 0) PENDIENTE) n))
      with (find (turno_en_horario 1 Ejemplos.lunes (hm 9 30))
              (repeat (Ejemplos.turno 1 7 (hm 8 0) PENDIENTE) n)).
    exact IHq.
Qed.

(** C9. With no [ConfiguracionEspecialista] row for the specialist,
    [validar_turno] makes no capacity check: for a time inside an active
    window, with no block on the date and no occupying appointment at that
    time, it returns [(True, "Turno válido")] however many occupying
    appointments the specialist has that day (for each [n] there is a store
    with [n] of them where it does), while [obtener_slots_disponibles]
    returns the empty list for the same specialist and date. *)
Theorem validar_turno_sin_configuracion :
  (forall db especialista_id especialidad_id fecha hora h,
      query_config db especialista_id = None ->
      query_horario_para db especialista_id especialidad_id (weekday fecha) hora
      = Some h ->
      query_bloqueos db especialista_id fecha = [] ->
      query_turno_existente db especialista_id fecha hora = None ->
      validar_turno db especialista_id especialidad_id fecha hora
      = Ok (true, msg_valido)
      /\ (forall fuel,
            obtener_slots_disponibles fuel db especialista_id especialidad_id fecha
            = Ok []))
  /\ (forall n : nat,
        count_turnos_del_dia (Ejemplos.db_sin_config_n n) 1 Ejemplos.lunes
        = Z.of_nat n
        /\ validar_turno (Ejemplos.db_sin_config_n n) 1 7 Ejemplos.lunes (hm 9 30)
           = Ok (true, msg_valido)
        /\ obtener_slots_disponibles FUEL_DIA (Ejemplos.db_sin_config_n n) 1 7
             Ejemplos.lunes = Ok []).
Proof.
  assert (Hgen : forall db eid espid fecha hora h,
             query_config db eid = None ->
             query_horario_para db eid espid (weekday fecha) hora = Some h ->
             query_bloqueos db eid fecha = [] ->
             query_turno_existente db eid fecha hora = None ->
             validar_turno db eid espid fecha hora = Ok (true, msg_valido)
             /\ (forall fuel,
                    obtener_slots_disponibles fuel db eid espid fecha = Ok [])).
  { intros db eid espid fecha hora h Hcfg Hh Hbl Hex. split.
    - unfold validar_turno. rewrite Hh.
      unfold query_primer_bloqueo.
      rewrite (find_filter_nil _ _ Hbl).
      unfold verificar_existente. rewrite Hex.
      unfold verificar_cupo. rewrite Hcfg. reflexivity.
    - intros fuel. apply obtener_slots_disponibles_sin_config. exact Hcfg. }
  split; [ exact Hgen | ].
  intros n. destruct (ejemplo_sin_config_n n) as [Hc Hq].
  split; [ exact Hc | ].
  destruct (Hgen (Ejemplos.db_sin_config_n n) 1 7 Ejemplos.lunes (hm 9 30)
                 Escenario.ventana) as [Hv Ho];
    try reflexivity; try exact Hq.
  split; [ exact Hv | apply Ho ].
Qed.

Lemma validar_turno_sin_configuracion_witness :
  count_turnos_del_dia Ejemplos.db_sin_config_lleno 1 Ejemplos.lunes = 3
  /\ validar_turno Ejemplos.db_sin_config_lleno 1 7 Ejemplos.lunes (hm 9 30)
     = Ok (true, msg_valido)
  /\ (forall fuel,
        obtener_slots_disponibles fuel Ejemplos.db_sin_config_lleno 1 7
          Ejemplos.lunes = Ok []).
Proof.
  split; [ reflexivity | ].
  apply (proj1 validar_turno_sin_configuracion Ejemplos.db_sin_config_lleno 1 7
               Ejemplos.lunes (hm 9 30) Escenario.ventana).
  - reflexivity.
  - reflexivity.
  - reflexivity.
  - reflexivity.
Defined.

(** When the block fetched is a full-day block, or a timed block that
    contains the time, the validator rejects with that block's reason. *)
Lemma validar_turno_bloqueado db eid espid fecha hora h b :
  query_horario_para db eid espid (weekday fecha) hora = Some h ->
  query_primer_bloqueo db eid fecha = Some b ->
  spec_bloqueo_cubre b hora = true ->
  validar_turno db eid espid fecha hora = Ok (false, msg_bloqueado b).
Proof.
  intros Hh Hb Hcubre.
  rewrite (validar_turno_primer_bloqueo _ _ _ _ _ _ _ Hh Hb).
  unfold spec_bloqueo_cubre in Hcubre. unfold bloqueo_rechaza.
  destruct (b_hora_inicio b) as [ini | ], (b_hora_fin b) as [fin | ];
    try discriminate; [ | reflexivity ].
  apply andb_true_iff in Hcubre. destruct Hcubre as [H1 H2].
  rewrite H1. cbn [bind]. rewrite H2. reflexivity.
Qed.

(** C3. The validator looks at the first retrieved block only.  On a date
    with two active overlapping blocks, a timed block 12:00-13:00 retrieved
    first and a full-day block after it, the request for 09:00 is covered by
    the full-day block and yet [validar_turno] answers
    [(True, "Turno válido")]; [obtener_slots_disponibles], which tests every
    block, offers no slot on that date. *)
Theorem validar_turno_ignora_segundo_bloqueo :
  query_bloqueos Ejemplos.db_dos_bloqueos 1 Ejemplos.lunes
  = [ Ejemplos.bloqueo (Some (hm 12 0)) (Some (hm 13 0)) "Almuerzo";
      Ejemplos.bloqueo None None "Vacaciones" ]
  /\ spec_bloqueo_cubre (Ejemplos.bloqueo None None "Vacaciones") (hm 9 0) = true
  /\ validar_turno Ejemplos.db_dos_bloqueos 1 7 Ejemplos.lunes (hm 9 0)
     = Ok (true, msg_valido)
  /\ obtener_slots_disponibles FUEL_DIA Ejemplos.db_dos_bloqueos 1 7 Ejemplos.lunes
     = Ok [].
Proof. repeat split; vm_compute; reflexivity. Qed.

(** ** The booking view: claim C1 *)

(** The view refuses a request when a PENDIENTE appointment holds the slot,
    and leaves the ledger as it was. *)
Lemma nuevo_turno_rechaza_pendiente db req t :
  query_turno_pendiente db (s_especialista_id req) (s_fecha req) (s_hora req)
  = Some t ->
  nuevo_turno db req = (db, HorarioOcupado).
Proof. intros H. unfold nuevo_turno. rewrite H. reflexivity. Qed.

(** With no PENDIENTE appointment at the slot the view inserts, whatever
    CONFIRMADO appointments hold it: the occupying appointments at the slot
    grow by one. *)
Lemma nuevo_turno_inserta db req :
  query_turno_pendiente db (s_especialista_id req) (s_fecha req) (s_hora req)
  = None ->
  List.length (ocupantes (fst (nuevo_turno db req))
                 (s_especialista_id req) (s_fecha req) (s_hora req))
  = S (List.length (ocupantes db (s_especialista_id req) (s_fecha req) (s_hora req))).
Proof.
  intros H. unfold nuevo_turno. rewrite H. cbn [fst]. unfold ocupantes, set_turnos.
  cbn [turnos]. rewrite filter_app, length_app. cbn [filter].
  unfold turno_en_horario at 2. cbn [t_especialista_id t_fecha t_hora estado col_eq].
  rewrite !Z.eqb_refl. cbn [andb].
  replace (estado_ocupa (if s_prepaga req then CONFIRMADO else PENDIENTE))
    with true by (destruct (s_prepaga req); reflexivity).
  cbn [List.length]. apply Nat.add_1_r.
Qed.

(** C1. The booking view looks for a PENDIENTE appointment only.  From a
    ledger with no appointment, a first request for (specialist 1, Monday,
    09:00) by a patient with a prepaid plan is booked and confirmed; a second
    request for the same specialist, date and time is booked as well, and the
    ledger then holds two occupying appointments at that specialist, date and
    time.  [validar_turno], which looks for PENDIENTE and CONFIRMADO, rejects
    the second request on the ledger the view accepted it on. *)
Theorem nuevo_turno_doble_reserva :
  turnos Ejemplos.db_inicial = []
  /\ snd (nuevo_turno Ejemplos.db_inicial (Ejemplos.solicitud 501 true))
     = TurnoAgendado 1
  /\ map estado (ocupantes Ejemplos.db_tras_primera 1 Ejemplos.lunes (hm 9 0))
     = [CONFIRMADO]
  /\ validar_turno Ejemplos.db_tras_primera 1 7 Ejemplos.lunes (hm 9 0)
     = Ok (false, msg_ya_existe)
  /\ snd (nuevo_turno Ejemplos.db_tras_primera (Ejemplos.solicitud 502 false))
     = TurnoAgendado 2
  /\ map (fun t => (t_id t, paciente_id t, estado t))
         (ocupantes Ejemplos.db_tras_segunda 1 Ejemplos.lunes (hm 9 0))
     = [ (1, 501, CONFIRMADO); (2, 502, PENDIENTE) ].
Proof. repeat split; vm_compute; reflexivity. Qed.

(** * Further properties of the code *)

(** ** [generar_slots]: the shape of the list *)

(** Every pair the loop appends lies between the cursor's starting point and
    the limit, whatever the fuel and whether or not the arithmetic
    overflows later. *)
Lemma generar_slots_loop_en_ventana db self fecha d :
  valid_time (h_hora_inicio self) ->
  valid_time (h_hora_fin self) ->
  0 < d ->
  (forall b, buffer_efectivo db self = Some b -> 0 <= b) ->
  forall (fuel : nat) actual acc l,
    combine fecha (h_hora_inicio self) <= actual ->
    Forall (slot_en_ventana self d) acc ->
    generar_slots_loop fuel db self d actual (combine fecha (h_hora_fin self)) acc
    = Ok l ->
    Forall (slot_en_ventana self d) l.
Proof.
  intros [Hs0 Hs1] [He0 He1] Hd Hb.
  assert (Hdur : 0 < d * US_MINUTE) by (unfold US_MINUTE; lia).
  induction fuel as [ | fuel IH ]; intros actual acc l Hact Hacc Hrun.
  - cbn [generar_slots_loop] in Hrun.
    destruct (actual <? combine fecha (h_hora_fin self)); [ discriminate | ].
    injection Hrun as <-. exact Hacc.
  - rewrite generar_slots_loop_unfold in Hrun.
    destruct (Z.ltb_spec actual (combine fecha (h_hora_fin self))) as [Hlt | Hge];
      [ | injection Hrun as <-; exact Hacc ].
    destruct (timedelta_minutes_cases d) as [Htd | Htd]; rewrite Htd in Hrun;
      cbn [bind] in Hrun; [ | discriminate ].
    destruct (dt_add_cases actual (d * US_MINUTE)) as [Hadd | Hadd];
      rewrite Hadd in Hrun; cbn [bind] in Hrun; [ | discriminate ].
    destruct (buffer_efectivo db self) as [b | ] eqn:Hbuf;
      cbn [timedelta_minutes_opt] in Hrun; [ | discriminate ].
    specialize (Hb b eq_refl).
    assert (Hbuf0 : 0 <= b * US_MINUTE) by (unfold US_MINUTE; lia).
    destruct (timedelta_minutes_cases b) as [Htb | Htb]; rewrite Htb in Hrun;
      cbn [bind] in Hrun; [ | discriminate ].
    destruct (dt_add_cases (actual + d * US_MINUTE) (b * US_MINUTE)) as [Hadd2 | Hadd2];
      rewrite Hadd2 in Hrun; cbn [bind] in Hrun; [ | discriminate ].
    apply IH in Hrun; [ exact Hrun | lia | ].
    destruct (Z.leb_spec (actual + d * US_MINUTE) (combine fecha (h_hora_fin self)))
      as [Hfit | Hno]; [ | exact Hacc ].
    apply Forall_app. split; [ exact Hacc | ].
    constructor; [ | constructor ].
    assert (Hx : h_hora_inicio self <= actual - fecha * US_DAY
                 /\ actual - fecha * US_DAY + d * US_MINUTE <= h_hora_fin self)
      by (unfold combine in *; lia).
    replace actual with (combine fecha (actual - fecha * US_DAY))
      by (unfold combine; lia).
    replace (combine fecha (actual - fecha * US_DAY) + d * US_MINUTE)
      with (combine fecha (actual - fecha * US_DAY + d * US_MINUTE))
      by (unfold combine; lia).
    rewrite !time_of_combine by lia.
    unfold slot_en_ventana; cbn [fst snd]. lia.
Qed.

(** X1. Whatever list [generar_slots] returns for a window with valid times,
    a positive effective duration and a buffer that is not negative, every
    slot of it starts at or after the window's start, ends at or before the
    window's end and lasts exactly the effective duration. *)
Theorem generar_slots_dentro_de_ventana :
  forall fuel db self fecha l,
    ventana_regular db self ->
    generar_slots fuel db self fecha = Ok l ->
    Forall (slot_en_ventana self (duracion_efectiva db self)) l.
Proof.
  intros fuel db self fecha l (Hs & He & Hd & Hb) Hrun.
  unfold generar_slots in Hrun.
  eapply generar_slots_loop_en_ventana; try eassumption.
  - apply Z.le_refl.
  - constructor.
Qed.

Lemma generar_slots_dentro_de_ventana_witness :
  Forall (slot_en_ventana Escenario.ventana 30)
         [ (hm 8 0, hm 8 30); (hm 8 40, hm 9 10); (hm 9 20, hm 9 50) ].
Proof.
  apply (generar_slots_dentro_de_ventana FUEL_DIA (Escenario.db 10)
           Escenario.ventana Escenario.lunes).
  - unfold ventana_regular, valid_time. repeat split; try (vm_compute; congruence).
    intros b Hb. vm_compute in Hb. injection Hb as <-. lia.
  - vm_compute. reflexivity.
Defined.

Lemma spec_slots_nth s e d b (k : nat) :
  (k < Z.to_nat (spec_cantidad s e d b))%nat ->
  nth_error (spec_slots s e d b) k = Some (spec_slot s d b (Z.of_nat k)).
Proof.
  intros Hk. unfold spec_slots.
  rewrite nth_error_map, nth_error_seq.
  apply Nat.ltb_lt in Hk. rewrite Hk. reflexivity.
Qed.

Lemma spec_slots_length s e d b :
  List.length (spec_slots s e d b) = Z.to_nat (spec_cantidad s e d b).
Proof. unfold spec_slots. rewrite length_map, length_seq. reflexivity. Qed.

(** X2. In the list returned for a regular window on a date in range, each
    slot starts exactly the buffer after the end of the slot before it: the
    slots are in increasing order and do not overlap. *)
Theorem generar_slots_separados :
  forall db self fecha d b l (k : nat) p q,
    duracion_efectiva db self = d ->
    buffer_efectivo db self = Some b ->
    0 < d -> 0 <= b ->
    en_rango fecha self d b ->
    generar_slots FUEL_DIA db self fecha = Ok l ->
    nth_error l k = Some p ->
    nth_error l (S k) = Some q ->
    fst q = snd p + b * US_MINUTE /\ snd p <= fst q.
Proof.
  intros db self fecha d b l k p q Hdur Hbuf Hd Hb Hrango Hrun Hp Hq.
  rewrite (generar_slots_fuel_dia db self fecha d b Hbuf Hd Hb Hrango FUEL_DIA Hdur)
    in Hrun by apply Nat.le_refl.
  injection Hrun as <-.
  assert (HSk : (S k < Z.to_nat (spec_cantidad (h_hora_inicio self)
                                   (h_hora_fin self) d b))%nat).
  { rewrite <- spec_slots_length. apply nth_error_Some. congruence. }
  rewrite spec_slots_nth in Hp by lia. rewrite spec_slots_nth in Hq by exact HSk.
  assert (Ep : p = spec_slot (h_hora_inicio self) d b (Z.of_nat k)) by congruence.
  assert (Eq : q = spec_slot (h_hora_inicio self) d b (Z.of_nat (S k))) by congruence.
  subst p q. unfold spec_slot; cbn [fst snd].
  pose proof (Nat2Z.inj_succ k) as HS.
  unfold US_MINUTE. lia.
Qed.

Lemma generar_slots_separados_witness :
  fst (hm 8 40, hm 9 10) = snd (hm 8 0, hm 8 30) + 10 * US_MINUTE
  /\ snd (hm 8 0, hm 8 30) <= fst (hm 8 40, hm 9 10).
Proof.
  apply (generar_slots_separados (Escenario.db 10) Escenario.ventana
           Escenario.lunes 30 10
           [ (hm 8 0, hm 8 30); (hm 8 40, hm 9 10); (hm 9 20, hm 9 50) ] 0%nat).
  - reflexivity.
  - reflexivity.
  - lia.
  - lia.
  - unfold en_rango, valid_time. vm_compute. intuition discriminate.
  - vm_compute. reflexivity.
  - reflexivity.
  - reflexivity.
Defined.

(** X3. For a regular window on a date in range: when the window is shorter
    than one duration the generator returns the empty list, and otherwise the
    list begins with the slot that starts at the window's start. *)
Theorem generar_slots_primer_slot :
  forall db self fecha d b,
    duracion_efectiva db self = d ->
    buffer_efectivo db self = Some b ->
    0 < d -> 0 <= b ->
    en_rango fecha self d b ->
    (h_hora_fin self < h_hora_inicio self + d * US_MINUTE ->
     generar_slots FUEL_DIA db self fecha = Ok [])
    /\ (h_hora_inicio self + d * US_MINUTE <= h_hora_fin self ->
        exists resto,
          generar_slots FUEL_DIA db self fecha
          = Ok ((h_hora_inicio self, h_hora_inicio self + d * US_MINUTE) :: resto)).
Proof.
  intros db self fecha d b Hdur Hbuf Hd Hb Hrango.
  rewrite (generar_slots_fuel_dia db self fecha d b Hbuf Hd Hb Hrango FUEL_DIA Hdur)
    by apply Nat.le_refl.
  split; intros Hlen.
  - unfold spec_slots, spec_cantidad.
    apply Z.leb_gt in Hlen. rewrite Hlen. reflexivity.
  - assert (H0 : 0 < spec_cantidad (h_hora_inicio self) (h_hora_fin self) d b).
    { apply spec_cantidad_iff; try lia.
      unfold spec_slot; cbn [snd]. lia. }
    unfold spec_slots.
    destruct (Z.to_nat (spec_cantidad (h_hora_inicio self) (h_hora_fin self) d b))
      as [ | n ] eqn:Hn; [ lia | ].
    cbn [seq map]. eexists. f_equal. f_equal.
    unfold spec_slot. cbn [Z.of_nat]. f_equal; lia.
Qed.

Lemma generar_slots_primer_slot_witness :
  (hm 10 0 < hm 8 0 + 30 * US_MINUTE ->
   generar_slots FUEL_DIA (Escenario.db 10) Escenario.ventana Escenario.lunes = Ok [])
  /\ (hm 8 0 + 30 * US_MINUTE <= hm 10 0 ->
      exists resto,
        generar_slots FUEL_DIA (Escenario.db 10) Escenario.ventana Escenario.lunes
        = Ok ((hm 8 0, hm 8 0 + 30 * US_MINUTE) :: resto)).
Proof.
  apply (generar_slots_primer_slot (Escenario.db 10) Escenario.ventana
           Escenario.lunes 30 10).
  - reflexivity.
  - reflexivity.
  - lia.
  - lia.
  - unfold en_rango, valid_time. vm_compute. intuition discriminate.
Defined.

(** X4. With an effective duration of 0 minutes and a buffer of 0 minutes
    (both can be stored: the columns accept them) the cursor never moves: on
    a window whose end is after its start the loop of [generar_slots] does
    not finish, whatever the fuel. *)
Theorem generar_slots_no_termina :
  forall fuel db self fecha,
    duracion_efectiva db self = 0 ->
    buffer_efectivo db self = Some 0 ->
    h_hora_inicio self < h_hora_fin self ->
    MINORDINAL * US_DAY <= combine fecha (h_hora_inicio self)
                        < (MAXORDINAL + 1) * US_DAY ->
    generar_slots fuel db self fecha = NoFuel.
Proof.
  intros fuel db self fecha Hdur Hbuf Hwin Hrange.
  unfold generar_slots. rewrite Hdur.
  assert (Hadd0 : dt_add (combine fecha (h_hora_inicio self)) 0
                  = Ok (combine fecha (h_hora_inicio self))).
  { rewrite dt_add_ok by (rewrite Z.add_0_r; exact Hrange).
    rewrite Z.add_0_r. reflexivity. }
  generalize (@nil (time * time)).
  induction fuel as [ | fuel IH ]; intros acc.
  - cbn [generar_slots_loop].
    replace (combine fecha (h_hora_inicio self) <? combine fecha (h_hora_fin self))
      with true by (symmetry; apply Z.ltb_lt; unfold combine; lia).
    reflexivity.
  - rewrite generar_slots_loop_unfold.
    replace (combine fecha (h_hora_inicio self) <? combine fecha (h_hora_fin self))
      with true by (symmetry; apply Z.ltb_lt; unfold combine; lia).
    rewrite Hbuf. cbn [timedelta_minutes_opt].
    change (timedelta_minutes 0) with (@Ok timedelta 0). cbn [bind].
    rewrite Hadd0. cbn [bind]. rewrite Hadd0. cbn [bind].
    apply IH.
Qed.

Lemma generar_slots_no_termina_witness :
  generar_slots 5000
    {| configuraciones :=
         [ {| cfg_especialista_id := 1;
              duracion_turno_minutos := 0;
              pacientes_maximos_dia := 20;
              tiempo_buffer_minutos := Some 0;
              permite_sobreturnos := Some false;
              sobreturnos_maximos := Some 0 |} ];
       horarios := [Escenario.ventana];
       bloqueos := [];
       turnos := [] |}
    Escenario.ventana Escenario.lunes
  = NoFuel.
Proof.
  apply generar_slots_no_termina.
  - reflexivity.
  - reflexivity.
  - vm_compute. reflexivity.
  - vm_compute. intuition discriminate.
Defined.

(** X5. A configuration row whose [tiempo_buffer_minutos] is NULL makes
    [generar_slots] raise [TypeError] at the first turn of the loop, as soon
    as the window's end is after its start and the first slot end is a
    datetime. *)
Theorem generar_slots_buffer_nulo :
  forall fuel db self fecha,
    buffer_efectivo db self = None ->
    h_hora_inicio self < h_hora_fin self ->
    - MAX_DELTA_DAYS * US_DAY <= duracion_efectiva db self * US_MINUTE
                              < (MAX_DELTA_DAYS + 1) * US_DAY ->
    MINORDINAL * US_DAY
    <= combine fecha (h_hora_inicio self) + duracion_efectiva db self * US_MINUTE
    < (MAXORDINAL + 1) * US_DAY ->
    generar_slots (S fuel) db self fecha = Raise TypeError.
Proof.
  intros fuel db self fecha Hbuf Hwin Htd Hadd.
  unfold generar_slots. rewrite generar_slots_loop_unfold.
  replace (combine fecha (h_hora_inicio self) <? combine fecha (h_hora_fin self))
    with true by (symmetry; apply Z.ltb_lt; unfold combine; lia).
  rewrite timedelta_minutes_ok by exact Htd. cbn [bind].
  rewrite dt_add_ok by exact Hadd. cbn [bind].
  rewrite Hbuf. reflexivity.
Qed.

Lemma generar_slots_buffer_nulo_witness :
  generar_slots 1
    {| configuraciones :=
         [ {| cfg_especialista_id := 1;
              duracion_turno_minutos := 30;
              pacientes_maximos_dia := 20;
              tiempo_buffer_minutos := None;
              permite_sobreturnos := Some false;
              sobreturnos_maximos := Some 0 |} ];
       horarios := [Escenario.ventana];
       bloqueos := [];
       turnos := [] |}
    Escenario.ventana Escenario.lunes
  = Raise TypeError.
Proof.
  apply generar_slots_buffer_nulo.
  - reflexivity.
  - vm_compute. reflexivity.
  - vm_compute. intuition discriminate.
  - vm_compute. intuition discriminate.
Defined.

(** ** [obtener_slots_disponibles]: what the answer is made of *)

Lemma recorrer_slots_eq db eid fecha bl slots :
  forall acc,
    recorrer_slots db eid fecha bl slots acc
    = acc ++ slots_de_ventana db eid fecha bl slots.
Proof.
  unfold slots_de_ventana.
  induction slots as [ | [ini fin] slots IH ]; intros acc; cbn [recorrer_slots].
  - cbn [filter map]. rewrite app_nil_r. reflexivity.
  - rewrite IH. cbn [filter fst].
    destruct (slot_bloqueado bl ini); cbn [negb]; [ reflexivity | ].
    cbn [map]. rewrite <- app_assoc. reflexivity.
Qed.

Lemma recorrer_horarios_eq fuel db eid fecha bl hs :
  forall rs acc,
    generados fuel db fecha hs rs ->
    recorrer_horarios fuel db eid fecha bl hs acc
    = Ok (acc ++ List.concat (map (slots_de_ventana db eid fecha bl) rs)).
Proof.
  induction hs as [ | h hs IH ]; intros rs acc Hgen; inversion Hgen; subst;
    cbn [recorrer_horarios map List.concat].
  - rewrite app_nil_r. reflexivity.
  - match goal with H : generar_slots _ _ _ _ = Ok _ |- _ => rewrite H end.
    cbn [bind]. rewrite recorrer_slots_eq.
    erewrite IH by eassumption. rewrite <- app_assoc. reflexivity.
Qed.

Lemma recorrer_horarios_inv fuel db eid fecha bl hs :
  forall acc l,
    recorrer_horarios fuel db eid fecha bl hs acc = Ok l ->
    exists rs,
      generados fuel db fecha hs rs
      /\ l = acc ++ List.concat (map (slots_de_ventana db eid fecha bl) rs).
Proof.
  induction hs as [ | h hs IH ]; intros acc l Hrun; cbn [recorrer_horarios] in Hrun.
  - injection Hrun as <-. exists []. split; [ constructor | ].
    cbn [map List.concat]. rewrite app_nil_r. reflexivity.
  - destruct (generar_slots fuel db h fecha) as [slots | | ] eqn:Hg;
      cbn [bind] in Hrun; try discriminate.
    rewrite recorrer_slots_eq in Hrun.
    destruct (IH _ _ Hrun) as (rs & Hrs & ->).
    exists (slots :: rs). split; [ constructor; assumption | ].
    cbn [map List.concat]. rewrite <- app_assoc. reflexivity.
Qed.

(** Where a returned slot comes from: a window of the query, a pair of that
    window's generated list, which no block stops. *)
Lemma obtener_slots_disponibles_origen fuel db eid espid fecha l s :
  obtener_slots_disponibles fuel db eid espid fecha = Ok l ->
  In s l ->
  exists h slots p,
    In h (query_horarios db eid espid (weekday fecha))
    /\ generar_slots fuel db h fecha = Ok slots
    /\ In p slots
    /\ slot_bloqueado (query_bloqueos db eid fecha) (fst p) = false
    /\ s = slot_de db eid fecha p.
Proof.
  unfold obtener_slots_disponibles.
  destruct (query_horarios db eid espid (weekday fecha)) as [ | h0 hs0 ] eqn:Hq;
    [ intros H; injection H as <-; contradiction | ].
  destruct (query_config db eid) as [config | ];
    [ | intros H; injection H as <-; contradiction ].
  destruct (_ && _); [ intros H; injection H as <-; contradiction | ].
  intros Hrun Hin.
  destruct (recorrer_horarios_inv _ _ _ _ _ _ _ _ Hrun) as (rs & Hrs & ->).
  cbn [app] in Hin. clear Hrun Hq.
  induction Hrs as [ | h r hs rs Hh Hrs IH ]; [ contradiction | ].
  cbn [map List.concat] in Hin. apply in_app_or in Hin. destruct Hin as [Hin | Hin].
  - unfold slots_de_ventana in Hin. apply in_map_iff in Hin.
    destruct Hin as (p & <- & Hp). apply filter_In in Hp. destruct Hp as [Hp Hb].
    apply negb_true_iff in Hb.
    exists h, r, p. repeat split; try assumption. left. reflexivity.
  - destruct (IH Hin) as (h' & slots & p & Hh' & Hg & Hp & Hb & ->).
    exists h', slots, p. repeat split; try assumption. right. exact Hh'.
Qed.

(** X6. When the specialist has a configuration and the capacity test lets
    the request through, the answer of [obtener_slots_disponibles] is the
    concatenation, window by window in the order the windows were retrieved,
    of each window's generated slots that no block stops, in the order they
    were generated: windows are not sorted and no slot is reordered. *)
Theorem obtener_slots_composicion :
  forall fuel db especialista_id especialidad_id fecha config rs,
    query_config db especialista_id = Some config ->
    cupo_abierto db especialista_id fecha config = true ->
    generados fuel db fecha
      (query_horarios db especialista_id especialidad_id (weekday fecha)) rs ->
    obtener_slots_disponibles fuel db especialista_id especialidad_id fecha
    = Ok (List.concat (map (slots_de_ventana db especialista_id fecha
                         (query_bloqueos db especialista_id fecha)) rs)).
Proof.
  intros fuel db eid espid fecha config rs Hcfg Hcupo Hgen.
  unfold obtener_slots_disponibles.
  destruct (query_horarios db eid espid (weekday fecha)) as [ | h hs ] eqn:Hq.
  - inversion Hgen. reflexivity.
  - rewrite Hcfg. unfold cupo_abierto in Hcupo. apply negb_true_iff in Hcupo.
    rewrite Hcupo.
    rewrite (recorrer_horarios_eq _ _ _ _ _ _ rs []) by exact Hgen.
    reflexivity.
Qed.

Lemma obtener_slots_composicion_witness :
  obtener_slots_disponibles FUEL_DIA Ejemplos.db_bloqueo_horario 1 7 Ejemplos.lunes
  = Ok (List.concat (map (slots_de_ventana Ejemplos.db_bloqueo_horario 1 Ejemplos.lunes
                       (query_bloqueos Ejemplos.db_bloqueo_horario 1 Ejemplos.lunes))
                    [ [ (hm 8 0, hm 8 30); (hm 8 30, hm 9 0);
                        (hm 9 0, hm 9 30); (hm 9 30, hm 10 0) ] ])).
Proof.
  apply (obtener_slots_composicion FUEL_DIA Ejemplos.db_bloqueo_horario 1 7
           Ejemplos.lunes (Escenario.config 0)).
  - reflexivity.
  - reflexivity.
  - constructor; [ vm_compute; reflexivity | constructor ].
Defined.

Lemma find_none_filter {A : Type} (f : A -> bool) (l : list A) :
  find f l = None <-> filter f l = [].
Proof.
  induction l as [ | a l IH ]; cbn [find filter]; [ tauto | ].
  destruct (f a); [ split; discriminate | exact IH ].
Qed.

(** X7. In the answer of [obtener_slots_disponibles] a slot is marked
    available exactly when the ledger has no occupying appointment (PENDIENTE
    or CONFIRMADO) of the specialist on that date at the slot's start time,
    whatever the specialty of the appointment; and a [turno_id] it carries is
    the id of such an appointment. *)
Theorem obtener_slots_disponible_sii :
  forall fuel db especialista_id especialidad_id fecha l s,
    obtener_slots_disponibles fuel db especialista_id especialidad_id fecha = Ok l ->
    In s l ->
    (disponible s = true
     <-> ocupantes db especialista_id fecha (hora_inicio s) = [])
    /\ (disponible s = true <-> turno_id s = None)
    /\ (forall id, turno_id s = Some id ->
          exists t, In t (turnos db) /\ t_id t = id
                    /\ t_especialista_id t = Some especialista_id
                    /\ t_fecha t = fecha /\ t_hora t = hora_inicio s
                    /\ estado_ocupa (estado t) = true).
Proof.
  intros fuel db eid espid fecha l s Hrun Hin.
  destruct (obtener_slots_disponibles_origen _ _ _ _ _ _ _ Hrun Hin)
    as (h & slots & p & _ & _ & _ & _ & ->).
  unfold slot_de, ocupantes; cbn [disponible turno_id hora_inicio].
  rewrite <- find_none_filter. fold (query_turno_existente db eid fecha (fst p)).
  destruct (query_turno_existente db eid fecha (fst p)) as [t | ] eqn:Hq;
    cbn [option_map].
  - split; [ split; discriminate | ]. split; [ split; discriminate | ].
    intros id Hid. injection Hid as <-. exists t.
    apply find_some in Hq. destruct Hq as [Ht Hm].
    unfold turno_en_horario in Hm.
    repeat (apply andb_true_iff in Hm; destruct Hm as [Hm ?]).
    unfold col_eq in Hm. destruct (t_especialista_id t) as [z | ]; [ | discriminate ].
    apply Z.eqb_eq in Hm. subst z.
    repeat split; try assumption; try reflexivity; apply Z.eqb_eq; assumption.
  - split; [ tauto | ]. split; [ tauto | ]. intros id Hid. discriminate.
Qed.

Lemma obtener_slots_disponible_sii_witness :
  (false = true <-> ocupantes Ejemplos.db_bloqueo_horario 1 Ejemplos.lunes (hm 8 0) = [])
  /\ (false = true <-> Some 1 = @None Z)
  /\ (forall id, Some 1 = Some id ->
        exists t, In t (turnos Ejemplos.db_bloqueo_horario) /\ t_id t = id
                  /\ t_especialista_id t = Some 1
                  /\ t_fecha t = Ejemplos.lunes /\ t_hora t = hm 8 0
                  /\ estado_ocupa (estado t) = true).
Proof.
  apply (obtener_slots_disponible_sii FUEL_DIA Ejemplos.db_bloqueo_horario 1 7
           Ejemplos.lunes
           [ {| hora_inicio := hm 8 0; hora_fin := hm 8 30;
                disponible := false; turno_id := Some 1 |};
             {| hora_inicio := hm 9 30; hora_fin := hm 10 0;
                disponible := true; turno_id := None |} ]
           {| hora_inicio := hm 8 0; hora_fin := hm 8 30;
              disponible := false; turno_id := Some 1 |}).
  - vm_compute. reflexivity.
  - left. reflexivity.
Defined.

Lemma find_existe {A : Type} (f : A -> bool) (l : list A) (x : A) :
  In x l -> f x = true -> exists y, find f l = Some y.
Proof.
  induction l as [ | a l IH ]; intros Hin Hf; [ contradiction | ].
  cbn [find]. destruct (f a) eqn:Ha; [ exists a; reflexivity | ].
  destruct Hin as [-> | Hin]; [ congruence | apply IH; assumption ].
Qed.

Lemma query_horarios_In db eid espid dia h :
  In h (query_horarios db eid espid dia) <->
  In h (horarios db)
  /\ h_especialista_id h = eid /\ h_especialidad_id h = espid
  /\ dia_semana h = dia /\ col_true (h_activo h) = true.
Proof.
  unfold query_horarios. rewrite filter_In.
  rewrite !andb_true_iff, !Z.eqb_eq. tauto.
Qed.

(** A returned slot lies in the window it was generated from. *)
Lemma obtener_slots_disponibles_ventana fuel db eid espid fecha l s :
  obtener_slots_disponibles fuel db eid espid fecha = Ok l ->
  In s l ->
  (forall h, In h (query_horarios db eid espid (weekday fecha)) ->
             ventana_regular db h) ->
  exists h,
    In h (query_horarios db eid espid (weekday fecha))
    /\ slot_en_ventana h (duracion_efectiva db h) (hora_inicio s, hora_fin s)
    /\ slot_bloqueado (query_bloqueos db eid fecha) (hora_inicio s) = false
    /\ disponible s
       = match query_turno_existente db eid fecha (hora_inicio s) with
         | None => true
         | Some _ => false
         end.
Proof.
  intros Hrun Hin Hreg.
  destruct (obtener_slots_disponibles_origen _ _ _ _ _ _ _ Hrun Hin)
    as (h & slots & p & Hh & Hg & Hp & Hb & ->).
  exists h. split; [ exact Hh | ].
  destruct (Hreg h Hh) as (Hs & He & Hd & Hbuf).
  unfold generar_slots in Hg.
  pose proof (generar_slots_loop_en_ventana db h fecha _ Hs He Hd Hbuf _ _ _ _
                (Z.le_refl _) (Forall_nil _) Hg) as Hall.
  rewrite Forall_forall in Hall. specialize (Hall p Hp).
  cbn [slot_de hora_inicio hora_fin disponible].
  destruct p as [a b]. repeat split; try exact Hb; apply Hall.
Qed.

(** X8. Under the same conditions on the windows as X1, every slot in the
    answer of [obtener_slots_disponibles] lies inside one of the active
    windows of that specialist, specialty and weekday, and lasts that
    window's effective duration. *)
Theorem obtener_slots_en_ventana :
  forall fuel db especialista_id especialidad_id fecha l s,
    obtener_slots_disponibles fuel db especialista_id especialidad_id fecha = Ok l ->
    In s l ->
    (forall h,
        In h (query_horarios db especialista_id especialidad_id (weekday fecha)) ->
        ventana_regular db h) ->
    exists h,
      In h (horarios db)
      /\ h_especialista_id h = especialista_id
      /\ h_especialidad_id h = especialidad_id
      /\ dia_semana h = weekday fecha
      /\ h_activo h = Some true
      /\ h_hora_inicio h <= hora_inicio s
      /\ hora_inicio s < hora_fin s
      /\ hora_fin s <= h_hora_fin h
      /\ hora_fin s = hora_inicio s + duracion_efectiva db h * US_MINUTE.
Proof.
  intros fuel db eid espid fecha l s Hrun Hin Hreg.
  destruct (obtener_slots_disponibles_ventana _ _ _ _ _ _ _ Hrun Hin Hreg)
    as (h & Hh & (H1 & H2 & H3) & _).
  cbn [fst snd] in H1, H2, H3.
  destruct (Hreg h Hh) as (_ & _ & Hd & _).
  apply query_horarios_In in Hh. destruct Hh as (Hh & He & Hesp & Hdia & Hact).
  exists h. repeat split; try assumption.
  - destruct (h_activo h) as [[ | ] | ]; try discriminate. reflexivity.
  - unfold US_MINUTE in *. lia.
Qed.

Lemma ejemplo_ventanas_regulares db :
  configuraciones db = [Escenario.config 0] ->
  horarios db = [Escenario.ventana] ->
  forall h, In h (query_horarios db 1 7 (weekday Ejemplos.lunes)) ->
            ventana_regular db h.
Proof.
  intros Hc Hh h Hin. apply query_horarios_In in Hin. destruct Hin as [Hin _].
  rewrite Hh in Hin. destruct Hin as [<- | []].
  unfold ventana_regular, valid_time, duracion_efectiva, buffer_efectivo, query_config.
  rewrite Hc. cbn. repeat split; try discriminate.
  intros b Hb. injection Hb as <-. lia.
Qed.

Lemma obtener_slots_en_ventana_witness :
  exists h,
    In h (horarios Ejemplos.db_bloqueo_horario)
    /\ h_especialista_id h = 1
    /\ h_especialidad_id h = 7
    /\ dia_semana h = weekday Ejemplos.lunes
    /\ h_activo h = Some true
    /\ h_hora_inicio h <= hm 9 30
    /\ hm 9 30 < hm 10 0
    /\ hm 10 0 <= h_hora_fin h
    /\ hm 10 0 = hm 9 30 + duracion_efectiva Ejemplos.db_bloqueo_horario h * US_MINUTE.
Proof.
  apply (obtener_slots_en_ventana FUEL_DIA Ejemplos.db_bloqueo_horario 1 7
           Ejemplos.lunes
           [ {| hora_inicio := hm 8 0; hora_fin := hm 8 30;
                disponible := false; turno_id := Some 1 |};
             {| hora_inicio := hm 9 30; hora_fin := hm 10 0;
                disponible := true; turno_id := None |} ]
           {| hora_inicio := hm 9 30; hora_fin := hm 10 0;
              disponible := true; turno_id := None |}).
  - vm_compute. reflexivity.
  - right. left. reflexivity.
  - apply ejemplo_ventanas_regulares; reflexivity.
Defined.

(** The block test of the engine is at least as strict as the one of the
    validator: a start time no block stops is not rejected by the block the
    validator fetches. *)
Lemma bloqueo_rechaza_no db eid fecha t b :
  slot_bloqueado (query_bloqueos db eid fecha) t = false ->
  query_primer_bloqueo db eid fecha = Some b ->
  bloqueo_rechaza b t = Ok false.
Proof.
  intros Hfree Hb. unfold query_primer_bloqueo in Hb. apply find_some in Hb.
  destruct (slot_bloqueado_false _ _ Hfree b) as [Hc Hu].
  { apply query_bloqueos_In. exact Hb. }
  unfold spec_bloqueo_cubre in Hc. unfold un_solo_extremo in Hu.
  unfold bloqueo_rechaza.
  destruct (b_hora_inicio b) as [ini | ], (b_hora_fin b) as [fin | ];
    try discriminate.
  destruct (ini <=? t); [ cbn [andb] in Hc; rewrite Hc | ]; reflexivity.
Qed.

(** X9. The engine and the validator agree on what can be booked: when the
    day's occupying appointments are below [pacientes_maximos_dia], every
    slot that [obtener_slots_disponibles] returns as available is accepted
    by [validar_turno] at its start time. *)
Theorem slot_disponible_es_valido :
  forall fuel db especialista_id especialidad_id fecha config l s,
    obtener_slots_disponibles fuel db especialista_id especialidad_id fecha = Ok l ->
    In s l ->
    disponible s = true ->
    query_config db especialista_id = Some config ->
    count_turnos_del_dia db especialista_id fecha < pacientes_maximos_dia config ->
    (forall h,
        In h (query_horarios db especialista_id especialidad_id (weekday fecha)) ->
        ventana_regular db h) ->
    validar_turno db especialista_id especialidad_id fecha (hora_inicio s)
    = Ok (true, msg_valido).
Proof.
  intros fuel db eid espid fecha config l s Hrun Hin Hdisp Hcfg Hcount Hreg.
  destruct (obtener_slots_disponibles_ventana _ _ _ _ _ _ _ Hrun Hin Hreg)
    as (h & Hh & (H1 & H2 & H3) & Hfree & Hd).
  cbn [fst snd] in H1, H2, H3.
  destruct (Hreg h Hh) as (_ & _ & Hdur & _).
  apply query_horarios_In in Hh. destruct Hh as (Hh & He & Hesp & Hdia & Hact).
  assert (Hq : exists h', query_horario_para db eid espid (weekday fecha)
                            (hora_inicio s) = Some h').
  { apply (find_existe _ _ h Hh).
    rewrite He, Hesp, Hdia, !Z.eqb_refl, Hact. cbn [andb]. rewrite andb_true_r.
    apply andb_true_iff. split; [ apply Z.leb_le; exact H1 | ].
    rewrite Z.gtb_ltb. apply Z.ltb_lt. unfold US_MINUTE in *. lia. }
  destruct Hq as [h' Hq].
  assert (Hex : verificar_existente db eid fecha (hora_inicio s)
                = Ok (true, msg_valido)).
  { unfold verificar_existente.
    rewrite Hdisp in Hd.
    destruct (query_turno_existente db eid fecha (hora_inicio s));
      [ discriminate | ].
    unfold verificar_cupo. rewrite Hcfg.
    replace (count_turnos_del_dia db eid fecha >=? pacientes_maximos_dia config)
      with false; [ reflexivity | ].
    symmetry. rewrite Z.geb_leb. apply Z.leb_gt. exact Hcount. }
  unfold validar_turno. rewrite Hq.
  destruct (query_primer_bloqueo db eid fecha) as [b | ] eqn:Hb; [ | exact Hex ].
  rewrite (bloqueo_rechaza_no _ _ _ _ _ Hfree Hb). cbn [bind]. exact Hex.
Qed.

Lemma slot_disponible_es_valido_witness :
  validar_turno Ejemplos.db_bloqueo_horario 1 7 Ejemplos.lunes (hm 9 30)
  = Ok (true, msg_valido).
Proof.
  apply (slot_disponible_es_valido FUEL_DIA Ejemplos.db_bloqueo_horario 1 7
           Ejemplos.lunes (Escenario.config 0)
           [ {| hora_inicio := hm 8 0; hora_fin := hm 8 30;
                disponible := false; turno_id := Some 1 |};
             {| hora_inicio := hm 9 30; hora_fin := hm 10 0;
                disponible := true; turno_id := None |} ]
           {| hora_inicio := hm 9 30; hora_fin := hm 10 0;
              disponible := true; turno_id := None |}).
  - vm_compute. reflexivity.
  - right. left. reflexivity.
  - reflexivity.
  - reflexivity.
  - vm_compute. reflexivity.
  - apply ejemplo_ventanas_regulares; reflexivity.
Defined.

(** ** [validar_turno]: what an answer means *)

Lemma bloqueo_rechaza_false b t :
  bloqueo_rechaza b t = Ok false -> spec_bloqueo_cubre b t = false.
Proof.
  unfold bloqueo_rechaza, spec_bloqueo_cubre.
  destruct (b_hora_inicio b) as [ini | ]; [ | discriminate ].
  destruct (ini <=? t); cbn [andb].
  - destruct (b_hora_fin b) as [fin | ]; [ | discriminate ].
    intros H. injection H as H. exact H.
  - destruct (b_hora_fin b); reflexivity.
Qed.

Lemma verificar_cupo_aceptado db eid fecha msg :
  verificar_cupo db eid fecha = Ok (true, msg) ->
  msg = msg_valido
  /\ (forall c, query_config db eid = Some c ->
        count_turnos_del_dia db eid fecha < pacientes_maximos_dia c
        \/ (permite_sobreturnos c = Some true
            /\ exists extra,
                sobreturnos_maximos c = Some extra
                /\ count_turnos_del_dia db eid fecha
                   < pacientes_maximos_dia c + extra)).
Proof.
  unfold verificar_cupo.
  destruct (query_config db eid) as [c | ].
  - destruct (Z.geb_spec (count_turnos_del_dia db eid fecha) (pacientes_maximos_dia c))
      as [Hge | Hlt].
    + destruct (permite_sobreturnos c) as [[ | ] | ] eqn:Hp; cbn [truthy_bool negb];
        try discriminate.
      destruct (sobreturnos_maximos c) as [extra | ] eqn:Hs; [ | discriminate ].
      destruct (Z.geb_spec (count_turnos_del_dia db eid fecha)
                           (pacientes_maximos_dia c + extra)) as [Hge2 | Hlt2];
        [ discriminate | ].
      intros H. injection H as <-. split; [ reflexivity | ].
      intros c' Hc'. injection Hc' as <-. right. split; [ exact Hp | ].
      exists extra. split; [ exact Hs | lia ].
    + intros H. injection H as <-. split; [ reflexivity | ].
      intros c' Hc'. injection Hc' as <-. left. lia.
  - intros H. injection H as <-. split; [ reflexivity | ]. discriminate.
Qed.

Lemma verificar_existente_aceptado db eid fecha hora msg :
  verificar_existente db eid fecha hora = Ok (true, msg) ->
  query_turno_existente db eid fecha hora = None
  /\ verificar_cupo db eid fecha = Ok (true, msg).
Proof.
  unfold verificar_existente.
  destruct (query_turno_existente db eid fecha hora); [ discriminate | ].
  intros H. split; [ reflexivity | exact H ].
Qed.

(** X10. When [validar_turno] accepts, the message is "Turno válido" and the
    request is indeed bookable as far as the validator looks: an active
    window of the specialist, specialty and weekday contains the time, the
    block it fetched does not cover the time, no occupying appointment of the
    specialist is at that date and time, and, when a configuration exists,
    the day's occupying appointments are below [pacientes_maximos_dia], or
    overflow is allowed and they are below
    [pacientes_maximos_dia + sobreturnos_maximos]. *)
Theorem validar_turno_aceptado :
  forall db especialista_id especialidad_id fecha hora msg,
    validar_turno db especialista_id especialidad_id fecha hora = Ok (true, msg) ->
    msg = msg_valido
    /\ (exists h,
          In h (horarios db)
          /\ h_especialista_id h = especialista_id
          /\ h_especialidad_id h = especialidad_id
          /\ dia_semana h = weekday fecha
          /\ h_activo h = Some true
          /\ h_hora_inicio h <= hora < h_hora_fin h)
    /\ (forall b, query_primer_bloqueo db especialista_id fecha = Some b ->
                  spec_bloqueo_cubre b hora = false)
    /\ ocupantes db especialista_id fecha hora = []
    /\ (forall c, query_config db especialista_id = Some c ->
          count_turnos_del_dia db especialista_id fecha < pacientes_maximos_dia c
          \/ (permite_sobreturnos c = Some true
              /\ exists extra,
                  sobreturnos_maximos c = Some extra
                  /\ count_turnos_del_dia db especialista_id fecha
                     < pacientes_maximos_dia c + extra)).
Proof.
  intros db eid espid fecha hora msg Hrun. unfold validar_turno in Hrun.
  destruct (query_horario_para db eid espid (weekday fecha) hora) as [h | ] eqn:Hh;
    [ | discriminate ].
  assert (Hwin : exists h,
             In h (horarios db)
             /\ h_especialista_id h = eid /\ h_especialidad_id h = espid
             /\ dia_semana h = weekday fecha /\ h_activo h = Some true
             /\ h_hora_inicio h <= hora < h_hora_fin h).
  { exists h. apply find_some in Hh. destruct Hh as [Hin Hm].
    rewrite !andb_true_iff, !Z.eqb_eq, Z.leb_le, Z.gtb_ltb, Z.ltb_lt in Hm.
    destruct Hm as (((((H1 & H2) & H3) & H4) & H5) & H6).
    repeat split; try assumption.
    destruct (h_activo h) as [[ | ] | ]; try discriminate. reflexivity. }
  assert (Hrest : forall m,
             verificar_existente db eid fecha hora = Ok (true, m) ->
             m = msg_valido
             /\ ocupantes db eid fecha hora = []
             /\ (forall c, query_config db eid = Some c ->
                   count_turnos_del_dia db eid fecha < pacientes_maximos_dia c
                   \/ (permite_sobreturnos c = Some true
                       /\ exists extra,
                           sobreturnos_maximos c = Some extra
                           /\ count_turnos_del_dia db eid fecha
                              < pacientes_maximos_dia c + extra))).
  { intros m Hm. apply verificar_existente_aceptado in Hm. destruct Hm as [Hq Hc].
    apply verificar_cupo_aceptado in Hc. destruct Hc as [-> Hc].
    split; [ reflexivity | ]. split; [ | exact Hc ].
    unfold ocupantes. apply find_none_filter. exact Hq. }
  destruct (query_primer_bloqueo db eid fecha) as [b | ] eqn:Hb.
  - destruct (bloqueo_rechaza b hora) as [[ | ] | | ] eqn:Hr; cbn [bind] in Hrun;
      try discriminate.
    destruct (Hrest _ Hrun) as (-> & Hoc & Hc).
    split; [ reflexivity | ]. split; [ exact Hwin | ].
    split; [ | split; assumption ].
    intros b' Hb'. injection Hb' as <-. apply bloqueo_rechaza_false. exact Hr.
  - destruct (Hrest _ Hrun) as (-> & Hoc & Hc).
    split; [ reflexivity | ]. split; [ exact Hwin | ].
    split; [ discriminate | split; assumption ].
Qed.

Lemma validar_turno_aceptado_witness :
  msg_valido = msg_valido
  /\ (exists h,
        In h (horarios Ejemplos.db_bloqueo_horario)
        /\ h_especialista_id h = 1
        /\ h_especialidad_id h = 7
        /\ dia_semana h = weekday Ejemplos.lunes
        /\ h_activo h = Some true
        /\ h_hora_inicio h <= hm 9 30 < h_hora_fin h)
  /\ (forall b, query_primer_bloqueo Ejemplos.db_bloqueo_horario 1 Ejemplos.lunes
                = Some b ->
                spec_bloqueo_cubre b (hm 9 30) = false)
  /\ ocupantes Ejemplos.db_bloqueo_horario 1 Ejemplos.lunes (hm 9 30) = []
  /\ (forall c, query_config Ejemplos.db_bloqueo_horario 1 = Some c ->
        count_turnos_del_dia Ejemplos.db_bloqueo_horario 1 Ejemplos.lunes
        < pacientes_maximos_dia c
        \/ (permite_sobreturnos c = Some true
            /\ exists extra,
                sobreturnos_maximos c = Some extra
                /\ count_turnos_del_dia Ejemplos.db_bloqueo_horario 1 Ejemplos.lunes
                   < pacientes_maximos_dia c + extra)).
Proof.
  apply (validar_turno_aceptado Ejemplos.db_bloqueo_horario 1 7 Ejemplos.lunes
           (hm 9 30) msg_valido).
  vm_compute. reflexivity.
Defined.

(** X11. [validar_turno] has no loop and no datetime arithmetic: it always
    stops, and the only exception it can raise is [TypeError], in two
    situations: the block it fetched has a start time at or before the
    requested time and no end time, or overflow is allowed, the day's
    capacity is reached and [sobreturnos_maximos] is NULL. *)
Theorem validar_turno_errores :
  forall db especialista_id especialidad_id fecha hora,
    validar_turno db especialista_id especialidad_id fecha hora <> NoFuel
    /\ (forall e,
          validar_turno db especialista_id especialidad_id fecha hora = Raise e ->
          e = TypeError
          /\ ((exists b ini,
                 query_primer_bloqueo db especialista_id fecha = Some b
                 /\ b_hora_inicio b = Some ini /\ ini <= hora
                 /\ b_hora_fin b = None)
              \/ (exists c,
                    query_config db especialista_id = Some c
                    /\ permite_sobreturnos c = Some true
                    /\ sobreturnos_maximos c = None
                    /\ count_turnos_del_dia db especialista_id fecha
                       >= pacientes_maximos_dia c))).
Proof.
  intros db eid espid fecha hora.
  assert (Hcupo : verificar_existente db eid fecha hora <> NoFuel
                  /\ (forall e, verificar_existente db eid fecha hora = Raise e ->
                        e = TypeError
                        /\ exists c,
                            query_config db eid = Some c
                            /\ permite_sobreturnos c = Some true
                            /\ sobreturnos_maximos c = None
                            /\ count_turnos_del_dia db eid fecha
                               >= pacientes_maximos_dia c)).
  { unfold verificar_existente, verificar_cupo.
    destruct (query_turno_existente db eid fecha hora);
      [ split; [ discriminate | intros e H; discriminate ] | ].
    destruct (query_config db eid) as [c | ];
      [ | split; [ discriminate | intros e H; discriminate ] ].
    destruct (Z.geb_spec (count_turnos_del_dia db eid fecha) (pacientes_maximos_dia c))
      as [Hge | Hlt]; [ | split; [ discriminate | intros e H; discriminate ] ].
    destruct (permite_sobreturnos c) as [[ | ] | ] eqn:Hp; cbn [truthy_bool negb];
      try (split; [ discriminate | intros e H; discriminate ]).
    destruct (sobreturnos_maximos c) as [extra | ] eqn:Hs.
    - destruct (_ >=? _); split; try discriminate; intros e H; discriminate.
    - split; [ discriminate | ]. intros e H. injection H as <-.
      split; [ reflexivity | ]. exists c. repeat split; try assumption. lia. }
  destruct Hcupo as [Hc1 Hc2].
  unfold validar_turno.
  destruct (query_horario_para db eid espid (weekday fecha) hora);
    [ | split; [ discriminate | intros e H; discriminate ] ].
  destruct (query_primer_bloqueo db eid fecha) as [b | ].
  - unfold bloqueo_rechaza.
    destruct (b_hora_inicio b) as [ini | ] eqn:Hini; cbn [bind];
      [ | split; [ discriminate | intros e H; discriminate ] ].
    destruct (Z.leb_spec ini hora) as [Hle | Hgt]; cbn [bind].
    + destruct (b_hora_fin b) as [fin | ] eqn:Hfin; cbn [bind].
      * destruct (hora <? fin).
        -- split; [ discriminate | intros e H; discriminate ].
        -- split; [ exact Hc1 | ]. intros e H. destruct (Hc2 e H) as [-> Hex].
           split; [ reflexivity | right; exact Hex ].
      * split; [ discriminate | ]. intros e H. injection H as <-.
        split; [ reflexivity | ]. left. exists b, ini. repeat split; assumption.
    + split; [ exact Hc1 | ]. intros e H. destruct (Hc2 e H) as [-> Hex].
      split; [ reflexivity | right; exact Hex ].
  - split; [ exact Hc1 | ]. intros e H. destruct (Hc2 e H) as [-> Hex].
    split; [ reflexivity | right; exact Hex ].
Qed.



(** ** [obtener_proximas_fechas_disponibles] *)

Lemma range_In (n i : Z) : In i (range n) <-> 0 <= i < n.
Proof.
  unfold range. rewrite in_map_iff. split.
  - intros (k & <- & Hk). apply in_seq in Hk. lia.
  - intros Hi. exists (Z.to_nat i). split; [ lia | ]. apply in_seq. lia.
Qed.

Lemma timedelta_days_cases (i : Z) :
  timedelta_days i = Ok i \/ timedelta_days i = Raise OverflowError.
Proof. unfold timedelta_days. destruct (_ && _); [ left | right ]; reflexivity. Qed.

Lemma date_add_cases (d i : Z) :
  date_add d i = Ok (d + i) \/ date_add d i = Raise OverflowError.
Proof. unfold date_add. destruct (_ && _); [ left | right ]; reflexivity. Qed.

Lemma filter_disponible_length (slots : list Slot) :
  (List.length (filter disponible slots) <= List.length slots)%nat
  /\ (existsb disponible slots = true ->
      (0 < List.length (filter disponible slots))%nat).
Proof.
  induction slots as [ | s slots [IH1 IH2] ]; cbn [filter existsb List.length].
  - split; [ lia | discriminate ].
  - destruct (disponible s); cbn [orb List.length]; split; try lia.
    intros H. apply IH2. exact H.
Qed.

(** One turn of the loop that goes on: the date is a date and the engine
    returned a list for it. *)
Lemma recorrer_fechas_paso fuel db eid espid hoy i resto acc fs :
  recorrer_fechas fuel db eid espid hoy (i :: resto) acc = Ok fs ->
  exists slots,
    obtener_slots_disponibles fuel db eid espid (hoy + i) = Ok slots
    /\ recorrer_fechas fuel db eid espid hoy resto
         (if existsb disponible slots then
            acc ++ [ {| fd_fecha := hoy + i;
                        fd_dia_semana := weekday (hoy + i);
                        slots_disponibles :=
                          Z.of_nat (List.length (filter disponible slots));
                        slots_totales := Z.of_nat (List.length slots) |} ]
          else acc)
       = Ok fs.
Proof.
  cbn [recorrer_fechas]. intros Hrun.
  destruct (timedelta_days_cases i) as [Ht | Ht]; rewrite Ht in Hrun;
    cbn [bind] in Hrun; [ | discriminate ].
  destruct (date_add_cases hoy i) as [Hd | Hd]; rewrite Hd in Hrun;
    cbn [bind] in Hrun; [ | discriminate ].
  destruct (obtener_slots_disponibles fuel db eid espid (hoy + i)) as [slots | | ];
    cbn [bind] in Hrun; try discriminate.
  exists slots. split; [ reflexivity | exact Hrun ].
Qed.

Lemma recorrer_fechas_entradas fuel db eid espid hoy indices :
  forall acc fs,
    recorrer_fechas fuel db eid espid hoy indices acc = Ok fs ->
    forall f, In f fs ->
      In f acc
      \/ exists i slots,
          In i indices
          /\ fd_fecha f = hoy + i
          /\ obtener_slots_disponibles fuel db eid espid (fd_fecha f) = Ok slots
          /\ fd_dia_semana f = weekday (fd_fecha f)
          /\ slots_totales f = Z.of_nat (List.length slots)
          /\ slots_disponibles f = Z.of_nat (List.length (filter disponible slots))
          /\ 0 < slots_disponibles f <= slots_totales f.
Proof.
  induction indices as [ | i resto IH ]; intros acc fs Hrun f Hf.
  - cbn [recorrer_fechas] in Hrun. injection Hrun as <-. left. exact Hf.
  - apply recorrer_fechas_paso in Hrun. destruct Hrun as (slots & Hs & Hrun).
    destruct (IH _ _ Hrun f Hf) as [Hacc | (j & sl & Hj & H)].
    + destruct (existsb disponible slots) eqn:Hany; [ | left; exact Hacc ].
      apply in_app_or in Hacc. destruct Hacc as [Hacc | [<- | []]];
        [ left; exact Hacc | ].
      right. exists i, slots. cbn [fd_fecha fd_dia_semana slots_totales slots_disponibles].
      destruct (filter_disponible_length slots) as [Hle Hpos].
      specialize (Hpos Hany).
      repeat split; try assumption; try reflexivity; try lia. left. reflexivity.
    + right. exists j, sl. split; [ right; exact Hj | exact H ].
Qed.

Lemma recorrer_fechas_fechas fuel db eid espid hoy indices :
  forall acc fs,
    recorrer_fechas fuel db eid espid hoy indices acc = Ok fs ->
    map fd_fecha fs
    = map fd_fecha acc
      ++ filter (tiene_disponible fuel db eid espid)
                (map (fun i => hoy + i) indices).
Proof.
  induction indices as [ | i resto IH ]; intros acc fs Hrun.
  - cbn [recorrer_fechas] in Hrun. injection Hrun as <-.
    cbn [map filter]. rewrite app_nil_r. reflexivity.
  - apply recorrer_fechas_paso in Hrun. destruct Hrun as (slots & Hs & Hrun).
    rewrite (IH _ _ Hrun). cbn [map filter].
    unfold tiene_disponible at 2. rewrite Hs.
    destruct (existsb disponible slots); [ | reflexivity ].
    rewrite map_app. cbn [map fd_fecha]. rewrite <- app_assoc. reflexivity.
Qed.

(** X13. Every entry of the list returned by
    [obtener_proximas_fechas_disponibles] is a date of the horizon
    [hoy <= fecha < hoy + dias_adelante] with its weekday, and its two
    counts are those of the engine's answer for that date: the number of
    slots and the number of available slots, of which there is at least one. *)
Theorem proximas_fechas_entradas :
  forall fuel db especialista_id especialidad_id hoy dias_adelante fs f,
    obtener_proximas_fechas_disponibles fuel db especialista_id especialidad_id
      hoy dias_adelante = Ok fs ->
    In f fs ->
    hoy <= fd_fecha f < hoy + dias_adelante
    /\ fd_dia_semana f = weekday (fd_fecha f)
    /\ 0 < slots_disponibles f <= slots_totales f
    /\ exists slots,
        obtener_slots_disponibles fuel db especialista_id especialidad_id
          (fd_fecha f) = Ok slots
        /\ slots_totales f = Z.of_nat (List.length slots)
        /\ slots_disponibles f
           = Z.of_nat (List.length (filter disponible slots)).
Proof.
  intros fuel db eid espid hoy dias fs f Hrun Hf.
  destruct (recorrer_fechas_entradas _ _ _ _ _ _ _ _ Hrun f Hf)
    as [[] | (i & slots & Hi & Hfe & Hs & Hd & Ht & Hn & Hpos)].
  apply range_In in Hi.
  split; [ lia | ]. split; [ exact Hd | ]. split; [ exact Hpos | ].
  exists slots. repeat split; assumption.
Qed.

(** X14. The dates of the returned list are exactly the dates
    [hoy, hoy+1, ..., hoy+dias_adelante-1] for which the engine returns at
    least one available slot, each once and in increasing order: no date with
    availability is skipped. *)
Theorem proximas_fechas_completas :
  forall fuel db especialista_id especialidad_id hoy dias_adelante fs,
    obtener_proximas_fechas_disponibles fuel db especialista_id especialidad_id
      hoy dias_adelante = Ok fs ->
    map fd_fecha fs
    = filter (tiene_disponible fuel db especialista_id especialidad_id)
             (map (fun i => hoy + i) (range dias_adelante)).
Proof.
  intros fuel db eid espid hoy dias fs Hrun.
  apply (recorrer_fechas_fechas _ _ _ _ _ _ [] fs Hrun).
Qed.

Lemma recorrer_fechas_sin_config fuel db eid espid hoy indices :
  query_config db eid = None ->
  MINORDINAL <= hoy ->
  (forall i, In i indices -> 0 <= i /\ MINORDINAL <= hoy + i <= MAXORDINAL) ->
  forall acc, recorrer_fechas fuel db eid espid hoy indices acc = Ok acc.
Proof.
  intros Hcfg Hhoy. induction indices as [ | i resto IH ]; intros Hr acc;
    cbn [recorrer_fechas]; [ reflexivity | ].
  destruct (Hr i (or_introl eq_refl)) as [Hi [Hlo Hhi]].
  assert (Ht : timedelta_days i = Ok i).
  { unfold timedelta_days.
    replace ((- MAX_DELTA_DAYS <=? i) && (i <=? MAX_DELTA_DAYS)) with true;
      [ reflexivity | ].
    symmetry. apply andb_true_iff. rewrite !Z.leb_le.
    unfold MAX_DELTA_DAYS, MINORDINAL, MAXORDINAL in *. lia. }
  assert (Hd : date_add hoy i = Ok (hoy + i)).
  { unfold date_add. cbn zeta.
    replace ((MINORDINAL <=? hoy + i) && (hoy + i <=? MAXORDINAL)) with true;
      [ reflexivity | ].
    symmetry. apply andb_true_iff. rewrite !Z.leb_le. lia. }
  rewrite Ht. cbn [bind]. rewrite Hd. cbn [bind].
  rewrite (obtener_slots_disponibles_sin_config _ _ _ _ _ Hcfg). cbn [bind existsb].
  apply IH. intros j Hj. apply Hr. right. exact Hj.
Qed.

(** X15. For a specialist with no configuration row, and a horizon that
    stays within the dates Python can represent,
    [obtener_proximas_fechas_disponibles] returns the empty list: no date is
    ever offered, whatever windows the specialist has. *)
Theorem proximas_fechas_sin_configuracion :
  forall fuel db especialista_id especialidad_id hoy dias_adelante,
    query_config db especialista_id = None ->
    MINORDINAL <= hoy ->
    hoy + dias_adelante <= MAXORDINAL + 1 ->
    obtener_proximas_fechas_disponibles fuel db especialista_id especialidad_id
      hoy dias_adelante = Ok [].
Proof.
  intros fuel db eid espid hoy dias Hcfg Hhoy Hmax.
  apply recorrer_fechas_sin_config; [ exact Hcfg | exact Hhoy | ].
  intros i Hi. apply range_In in Hi. lia.
Qed.

Lemma proximas_fechas_sin_configuracion_witness :
  obtener_proximas_fechas_disponibles 0 Ejemplos.db_sin_config 1 7 Ejemplos.lunes 30
  = Ok [].
Proof.
  apply proximas_fechas_sin_configuracion.
  - reflexivity.
  - vm_compute. discriminate.
  - vm_compute. discriminate.
Defined.

Lemma proximas_fechas_entradas_witness :
  Ejemplos.lunes <= Ejemplos.lunes < Ejemplos.lunes + 8
  /\ 0 = weekday Ejemplos.lunes
  /\ 0 < 1 <= 2
  /\ exists slots,
      obtener_slots_disponibles FUEL_DIA Ejemplos.db_bloqueo_horario 1 7
        Ejemplos.lunes = Ok slots
      /\ 2 = Z.of_nat (List.length slots)
      /\ 1 = Z.of_nat (List.length (filter disponible slots)).
Proof.
  apply (proximas_fechas_entradas FUEL_DIA Ejemplos.db_bloqueo_horario 1 7
           Ejemplos.lunes 8
           [ {| fd_fecha := Ejemplos.lunes; fd_dia_semana := 0;
                slots_disponibles := 1; slots_totales := 2 |};
             {| fd_fecha := Ejemplos.lunes + 7; fd_dia_semana := 0;
                slots_disponibles := 4; slots_totales := 4 |} ]
           {| fd_fecha := Ejemplos.lunes; fd_dia_semana := 0;
              slots_disponibles := 1; slots_totales := 2 |}).
  - vm_compute. reflexivity.
  - left. reflexivity.
Defined.

Lemma proximas_fechas_completas_witness :
  [ Ejemplos.lunes; Ejemplos.lunes + 7 ]
  = filter (tiene_disponible FUEL_DIA Ejemplos.db_bloqueo_horario 1 7)
           (map (fun i => Ejemplos.lunes + i) (range 8)).
Proof.
  apply (proximas_fechas_completas FUEL_DIA Ejemplos.db_bloqueo_horario 1 7
           Ejemplos.lunes 8
           [ {| fd_fecha := Ejemplos.lunes; fd_dia_semana := 0;
                slots_disponibles := 1; slots_totales := 2 |};
             {| fd_fecha := Ejemplos.lunes + 7; fd_dia_semana := 0;
                slots_disponibles := 4; slots_totales := 4 |} ]).
  vm_compute. reflexivity.
Defined.

(** ** [SuscripcionPrepaga]: consuming consultations *)

Lemma tiene_consultas_true self :
  tiene_consultas_disponibles self = Ok true ->
  susc_estado self = SUSC_ACTIVA
  /\ exists c d, consultas_consumidas self = Some c
                 /\ consultas_disponibles self = Some d /\ c < d.
Proof.
  unfold tiene_consultas_disponibles, lt_opt.
  destruct (susc_estado self); cbn [es_activa negb]; try discriminate.
  destruct (consultas_consumidas self) as [c | ]; [ | discriminate ].
  destruct (consultas_disponibles self) as [d | ]; [ | discriminate ].
  intros H. injection H as H. apply Z.ltb_lt in H.
  split; [ reflexivity | ]. exists c, d. repeat split. exact H.
Qed.

(** X16. [consumir_consulta] answers what [tiene_consultas_disponibles]
    answers.  When that is [False] the subscription is left as it was.  When
    it is [True] the state and the allowance are kept and
    [consultas_restantes] goes down by exactly one, from a value that was at
    least 1: the pair (before, after) the booking view records differs
    by one. *)
Theorem consumir_consulta_efecto :
  forall self b,
    tiene_consultas_disponibles self = Ok b ->
    exists self',
      consumir_consulta self = Ok (self', b)
      /\ (b = false -> self' = self)
      /\ (b = true ->
          susc_estado self' = susc_estado self
          /\ consultas_disponibles self' = consultas_disponibles self
          /\ exists antes,
              consultas_restantes self = Ok antes
              /\ consultas_restantes self' = Ok (antes - 1)
              /\ 1 <= antes).
Proof.
  intros self [ | ] Htiene.
  - destruct (tiene_consultas_true self Htiene) as (Hact & c & d & Hc & Hd & Hlt).
    unfold consumir_consulta. rewrite Htiene. cbn [bind]. rewrite Hc.
    eexists. split; [ reflexivity | ]. split; [ discriminate | ].
    intros _. cbn [susc_estado consultas_disponibles].
    split; [ reflexivity | ]. split; [ reflexivity | ].
    exists (d - c). unfold consultas_restantes, sub_opt.
    cbn [consultas_disponibles consultas_consumidas]. rewrite Hc, Hd. cbn [bind].
    repeat split; try lia; f_equal; lia.
  - unfold consumir_consulta. rewrite Htiene. cbn [bind].
    exists self. split; [ reflexivity | ]. split; [ reflexivity | discriminate ].
Qed.

Lemma consumir_consulta_efecto_witness :
  exists self',
    consumir_consulta {| susc_estado := SUSC_ACTIVA;
                         consultas_consumidas := Some 9;
                         consultas_disponibles := Some 10 |}
    = Ok (self', true)
    /\ (true = false ->
        self' = {| susc_estado := SUSC_ACTIVA;
                   consultas_consumidas := Some 9;
                   consultas_disponibles := Some 10 |})
    /\ (true = true ->
        susc_estado self' = SUSC_ACTIVA
        /\ consultas_disponibles self' = Some 10
        /\ exists antes,
            consultas_restantes {| susc_estado := SUSC_ACTIVA;
                                   consultas_consumidas := Some 9;
                                   consultas_disponibles := Some 10 |}
            = Ok antes
            /\ consultas_restantes self' = Ok (antes - 1)
            /\ 1 <= antes).
Proof.
  apply (consumir_consulta_efecto
           {| susc_estado := SUSC_ACTIVA;
              consultas_consumidas := Some 9;
              consultas_disponibles := Some 10 |} true).
  reflexivity.
Defined.

(** X17. On an active subscription with [c] consultations consumed out of
    [d], [c <= d], [n] calls of [consumir_consulta] in a row answer [True]
    exactly [min n (d - c)] times and leave [c + min n (d - c)] consumed: the
    allowance is used up to the last consultation and never exceeded. *)
Theorem consumir_veces_hasta_el_limite :
  forall (n : nat) c d,
    c <= d ->
    consumir_veces n {| susc_estado := SUSC_ACTIVA;
                        consultas_consumidas := Some c;
                        consultas_disponibles := Some d |}
    = Ok ({| susc_estado := SUSC_ACTIVA;
             consultas_consumidas :=
               Some (c + Z.of_nat (Nat.min n (Z.to_nat (d - c))));
             consultas_disponibles := Some d |},
          Nat.min n (Z.to_nat (d - c))).
Proof.
  induction n as [ | n IH ]; intros c d Hcd.
  - cbn [consumir_veces Nat.min Z.of_nat]. rewrite Z.add_0_r. reflexivity.
  - cbn [consumir_veces]. unfold consumir_consulta, tiene_consultas_disponibles, lt_opt.
    cbn [susc_estado es_activa negb consultas_consumidas consultas_disponibles].
    destruct (Z.ltb_spec c d) as [Hlt | Hge]; cbn [bind fst snd].
    + rewrite (IH (c + 1) d) by lia. cbn [bind fst snd].
      replace (Z.to_nat (d - c)) with (S (Z.to_nat (d - (c + 1)))) by lia.
      rewrite <- Nat.succ_min_distr.
      f_equal. f_equal. f_equal. f_equal. lia.
    + rewrite (IH c d) by lia. cbn [bind fst snd].
      replace (Z.to_nat (d - c)) with 0%nat by lia.
      rewrite !Nat.min_0_r. reflexivity.
Qed.

Lemma consumir_veces_hasta_el_limite_witness :
  consumir_veces 5 {| susc_estado := SUSC_ACTIVA;
                      consultas_consumidas := Some 8;
                      consultas_disponibles := Some 10 |}
  = Ok ({| susc_estado := SUSC_ACTIVA;
           consultas_consumidas := Some (8 + Z.of_nat (Nat.min 5 (Z.to_nat (10 - 8))));
           consultas_disponibles := Some 10 |},
        Nat.min 5 (Z.to_nat (10 - 8))).
Proof.
  apply (consumir_veces_hasta_el_limite 5 8 10). lia.
Defined.

(** ** [agregar_horario]: windows that do not overlap *)

Lemma ForallOrdPairs_snoc {A : Type} (R : A -> A -> Prop) (l : list A) (x : A) :
  ForallOrdPairs R l ->
  Forall (fun a => R a x) l ->
  ForallOrdPairs R (l ++ [x]).
Proof.
  induction 1 as [ | a l Ha Hl IH ]; intros Hx; cbn [app].
  - constructor; constructor.
  - inversion Hx; subst. constructor.
    + apply Forall_app. split; [ exact Ha | ]. constructor; [ assumption | constructor ].
    + apply IH. assumption.
Qed.


(** X18. [agregar_horario] keeps the windows in order: if no two active
    windows of one specialist, specialty and weekday overlap and every
    active window ends after it starts, the same holds after the call,
    whatever the request and whether or not it was accepted. *)
Theorem agregar_horario_conserva_orden :
  forall db req,
    horarios_ordenados (horarios db) ->
    horarios_ordenados (horarios (fst (agregar_horario db req))).
Proof.
  intros db req [Hpares Hbien]. unfold agregar_horario.
  destruct (Z.leb_spec (sh_hora_fin req) (sh_hora_inicio req)) as [Hle | Hlt];
    [ split; assumption | ].
  destruct (existsb (se_solapa (sh_hora_inicio req) (sh_hora_fin req))
              (query_horarios db (sh_especialista_id req) (sh_especialidad_id req)
                 (sh_dia_semana req))) eqn:Hsol;
    [ split; assumption | ].
  cbn [fst set_horarios horarios]. split.
  - apply ForallOrdPairs_snoc; [ exact Hpares | ].
    apply Forall_forall. intros h Hh.
    unfold compatibles.
    cbn [h_especialista_id h_especialidad_id dia_semana h_hora_inicio h_hora_fin h_activo].
    intros He Hesp Hdia Hact _.
    assert (Hq : In h (query_horarios db (sh_especialista_id req)
                         (sh_especialidad_id req) (sh_dia_semana req))).
    { apply query_horarios_In. repeat split; assumption. }
    assert (Hno : se_solapa (sh_hora_inicio req) (sh_hora_fin req) h = false).
    { destruct (se_solapa (sh_hora_inicio req) (sh_hora_fin req) h) eqn:Hs;
        [ | reflexivity ].
      rewrite <- Hsol. symmetry. apply existsb_exists. exists h. split; assumption. }
    unfold se_solapa in Hno. apply negb_false_iff in Hno.
    apply orb_true_iff in Hno. rewrite Z.leb_le, Z.geb_leb, Z.leb_le in Hno.
    destruct Hno; [ right | left ]; assumption.
  - apply Forall_app. split; [ exact Hbien | ].
    constructor; [ | constructor ].
    cbn [h_hora_inicio h_hora_fin]. intros _. exact Hlt.
Qed.

Lemma agregar_horario_conserva_orden_witness :
  horarios_ordenados
    (horarios (fst (agregar_horario (Escenario.db 0)
                      {| sh_especialista_id := 1;
                         sh_especialidad_id := 7;
                         sh_dia_semana := 0;
                         sh_hora_inicio := hm 10 0;
                         sh_hora_fin := hm 12 0;
                         sh_duracion_custom := None |})))
  /\ snd (agregar_horario (Escenario.db 0)
            {| sh_especialista_id := 1;
               sh_especialidad_id := 7;
               sh_dia_semana := 0;
               sh_hora_inicio := hm 10 0;
               sh_hora_fin := hm 12 0;
               sh_duracion_custom := None |})
     = HorarioAgregado.
Proof.
  split; [ | reflexivity ].
  apply agregar_horario_conserva_orden.
  split.
  - constructor; constructor.
  - constructor; [ | constructor ]. intros _. vm_compute. reflexivity.
Defined.



(** ** [cancelar_turno]: what a cancellation frees *)

Lemma set_estado_filter (P : Turno -> bool) (id : Z) (ts : list Turno) (t : Turno) :
  (forall t', P (con_estado t' CANCELADO) = false) ->
  find (fun t => t_id t =? id) ts = Some t ->
  List.length (filter P ts)
  = (List.length (filter P (set_estado id CANCELADO ts))
     + (if P t then 1 else 0))%nat.
Proof.
  intros Hcan. induction ts as [ | a ts IH ]; cbn [find set_estado];
    [ discriminate | ].
  destruct (t_id a =? id).
  - intros H. injection H as <-. cbn [filter]. rewrite Hcan.
    destruct (P a); cbn [List.length]; lia.
  - intros H. cbn [filter]. destruct (P a); cbn [List.length]; rewrite (IH H); lia.
Qed.

Lemma set_estado_find (id : Z) (e : EstadoTurno) (ts : list Turno) (t : Turno) :
  find (fun t => t_id t =? id) ts = Some t ->
  find (fun t => t_id t =? id) (set_estado id e ts) = Some (con_estado t e).
Proof.
  induction ts as [ | a ts IH ]; cbn [find set_estado]; [ discriminate | ].
  destruct (t_id a =? id) eqn:Ha.
  - intros H. injection H as <-. cbn [find con_estado t_id]. rewrite Ha. reflexivity.
  - intros H. cbn [find]. rewrite Ha. apply IH. exact H.
Qed.

Lemma cancelado_no_ocupa_dia e f t :
  turno_del_dia e f (con_estado t CANCELADO) = false.
Proof. unfold turno_del_dia. cbn [con_estado estado]. apply andb_false_r. Qed.

Lemma cancelado_no_ocupa_horario e f h t :
  turno_en_horario e f h (con_estado t CANCELADO) = false.
Proof. unfold turno_en_horario. cbn [con_estado estado]. apply andb_false_r. Qed.

(** X20. A cancellation that goes through is made by the appointment's
    patient on an appointment that is not REALIZADO; it sets that row to
    CANCELADO and touches nothing else, so the appointment stops counting:
    for every specialist and date the day's occupying count, and for every
    time the occupying appointments at that time, lose exactly this
    appointment if it was occupying and are unchanged otherwise. *)
Theorem cancelar_turno_libera :
  forall db user_id turno_id db',
    cancelar_turno db user_id turno_id = (db', TurnoCancelado) ->
    exists t,
      query_turno db turno_id = Some t
      /\ paciente_id t = user_id
      /\ estado t <> REALIZADO
      /\ query_turno db' turno_id = Some (con_estado t CANCELADO)
      /\ List.length (turnos db') = List.length (turnos db)
      /\ (forall e f,
            count_turnos_del_dia db' e f
            = count_turnos_del_dia db e f - (if turno_del_dia e f t then 1 else 0))
      /\ (forall e f h,
            Z.of_nat (List.length (ocupantes db' e f h))
            = Z.of_nat (List.length (ocupantes db e f h))
              - (if turno_en_horario e f h t then 1 else 0)).
Proof.
  intros db user id db' Hrun. unfold cancelar_turno in Hrun.
  destruct (query_turno db id) as [t | ] eqn:Hq; [ | discriminate ].
  destruct (Z.eqb_spec (paciente_id t) user) as [Hp | Hp]; cbn [negb] in Hrun;
    [ | discriminate ].
  destruct (EstadoTurno_eqb (estado t) REALIZADO) eqn:He; [ discriminate | ].
  injection Hrun as <-. exists t. unfold query_turno in *.
  split; [ reflexivity | ]. split; [ exact Hp | ].
  split; [ intros Hr; rewrite Hr in He; discriminate | ].
  cbn [set_turnos turnos]. split; [ apply set_estado_find; exact Hq | ].
  split.
  { clear Hq. induction (turnos db) as [ | a ts IH ]; cbn [set_estado];
      [ reflexivity | ].
    destruct (t_id a =? id); cbn [List.length]; [ reflexivity | ].
    rewrite IH. reflexivity. }
  split.
  - intros e f. unfold count_turnos_del_dia. cbn [set_turnos turnos].
    rewrite (set_estado_filter (turno_del_dia e f) id (turnos db) t
               (cancelado_no_ocupa_dia e f) Hq).
    destruct (turno_del_dia e f t); lia.
  - intros e f h. unfold ocupantes. cbn [set_turnos turnos].
    rewrite (set_estado_filter (turno_en_horario e f h) id (turnos db) t
               (cancelado_no_ocupa_horario e f h) Hq).
    destruct (turno_en_horario e f h t); lia.
Qed.

Lemma cancelar_turno_libera_witness :
  exists t,
    query_turno Ejemplos.db_sin_config_lleno 2 = Some t
    /\ paciente_id t = 102
    /\ estado t <> REALIZADO
    /\ query_turno (fst (cancelar_turno Ejemplos.db_sin_config_lleno 102 2)) 2
       = Some (con_estado t CANCELADO)
    /\ List.length (turnos (fst (cancelar_turno Ejemplos.db_sin_config_lleno 102 2)))
       = List.length (turnos Ejemplos.db_sin_config_lleno)
    /\ (forall e f,
          count_turnos_del_dia
            (fst (cancelar_turno Ejemplos.db_sin_config_lleno 102 2)) e f
          = count_turnos_del_dia Ejemplos.db_sin_config_lleno e f
            - (if turno_del_dia e f t then 1 else 0))
    /\ (forall e f h,
          Z.of_nat (List.length
                      (ocupantes
                         (fst (cancelar_turno Ejemplos.db_sin_config_lleno 102 2))
                         e f h))
          = Z.of_nat (List.length (ocupantes Ejemplos.db_sin_config_lleno e f h))
            - (if turno_en_horario e f h t then 1 else 0)).
Proof.
  apply (cancelar_turno_libera Ejemplos.db_sin_config_lleno 102 2).
  reflexivity.
Defined.

Lemma siguiente_id_mayor (ts : list Turno) (t : Turno) :
  In t ts -> t_id t < siguiente_id ts.
Proof.
  unfold siguiente_id. induction ts as [ | a ts IH ]; intros Hin; [ contradiction | ].
  cbn [fold_right]. destruct Hin as [-> | Hin]; [ lia | ].
  specialize (IH Hin). lia.
Qed.

Lemma find_app_fresco (id : Z) (ts : list Turno) (x : Turno) :
  (forall t, In t ts -> t_id t <> id) ->
  t_id x = id ->
  find (fun t => t_id t =? id) (ts ++ [x]) = Some x
  /\ forall e, set_estado id e (ts ++ [x]) = ts ++ [con_estado x e].
Proof.
  intros Hts Hx. induction ts as [ | a ts IH ]; cbn [app find set_estado].
  - apply Z.eqb_eq in Hx. rewrite Hx. split; reflexivity.
  - assert (Ha : (t_id a =? id) = false)
      by (apply Z.eqb_neq; apply Hts; left; reflexivity).
    rewrite Ha. destruct IH as [IH1 IH2].
    { intros t Ht. apply Hts. right. exact Ht. }
    split; [ exact IH1 | ]. intros e. rewrite IH2. reflexivity.
Qed.

(** X21. Booking and then cancelling gives the slot back.  If [nuevo_turno]
    books a request under a key that no row of the ledger has (the key the
    database assigns), the patient's [cancelar_turno] of that key goes
    through, and afterwards the occupying appointments at every specialist,
    date and time, and every day's occupying count, are what they were
    before the booking. *)
Theorem reservar_y_cancelar :
  forall db req db1 id,
    nuevo_turno db req = (db1, TurnoAgendado id) ->
    exists db2,
      cancelar_turno db1 (s_paciente_id req) id = (db2, TurnoCancelado)
      /\ (forall e f h, ocupantes db2 e f h = ocupantes db e f h)
      /\ (forall e f, count_turnos_del_dia db2 e f = count_turnos_del_dia db e f).
Proof.
  intros db req db1 id Hrun. unfold nuevo_turno in Hrun.
  destruct (query_turno_pendiente db (s_especialista_id req) (s_fecha req)
              (s_hora req)); [ discriminate | ].
  injection Hrun as <- <-.
  set (nuevo := {| t_id := siguiente_id (turnos db);
                   paciente_id := s_paciente_id req;
                   t_especialista_id := Some (s_especialista_id req);
                   t_especialidad_id := s_especialidad_id req;
                   t_fecha := s_fecha req;
                   t_hora := s_hora req;
                   estado := if s_prepaga req then CONFIRMADO else PENDIENTE |}).
  destruct (find_app_fresco (siguiente_id (turnos db)) (turnos db) nuevo)
    as [Hfind Hset].
  { intros t Ht. pose proof (siguiente_id_mayor _ _ Ht). lia. }
  { reflexivity. }
  unfold cancelar_turno, query_turno. cbn [set_turnos turnos].
  rewrite Hfind. cbn [nuevo paciente_id estado]. rewrite Z.eqb_refl. cbn [negb].
  replace (EstadoTurno_eqb (if s_prepaga req then CONFIRMADO else PENDIENTE) REALIZADO)
    with false by (destruct (s_prepaga req); reflexivity).
  eexists. split; [ reflexivity | ].
  rewrite Hset. split.
  - intros e f h. unfold ocupantes. cbn [set_turnos turnos].
    rewrite filter_app. cbn [filter]. rewrite cancelado_no_ocupa_horario.
    apply app_nil_r.
  - intros e f. unfold count_turnos_del_dia. cbn [set_turnos turnos].
    rewrite filter_app. cbn [filter]. rewrite cancelado_no_ocupa_dia.
    rewrite app_nil_r. reflexivity.
Qed.

Lemma reservar_y_cancelar_witness :
  exists db2,
    cancelar_turno Ejemplos.db_tras_primera 501 1 = (db2, TurnoCancelado)
    /\ (forall e f h, ocupantes db2 e f h = ocupantes Ejemplos.db_inicial e f h)
    /\ (forall e f, count_turnos_del_dia db2 e f
                    = count_turnos_del_dia Ejemplos.db_inicial e f).
Proof.
  apply (reservar_y_cancelar Ejemplos.db_inicial (Ejemplos.solicitud 501 true)
           Ejemplos.db_tras_primera 1).
  reflexivity.
Defined.

(** X22. The booking view consults the ledger only.  With no PENDIENTE
    appointment at the requested specialist, date and time it books, whatever
    windows, blocks, configuration and CONFIRMADO appointments the store
    holds: the earlier rows are kept, one row is appended for the request
    (CONFIRMADO with a prepaid consultation, PENDIENTE otherwise), and both
    the occupying appointments at that time and the specialist's occupying
    count of the day grow by one. *)
Theorem nuevo_turno_efecto :
  forall db req,
    query_turno_pendiente db (s_especialista_id req) (s_fecha req) (s_hora req)
    = None ->
    exists t,
      nuevo_turno db req
      = (set_turnos db (turnos db ++ [t]), TurnoAgendado (t_id t))
      /\ paciente_id t = s_paciente_id req
      /\ t_especialista_id t = Some (s_especialista_id req)
      /\ t_especialidad_id t = s_especialidad_id req
      /\ t_fecha t = s_fecha req
      /\ t_hora t = s_hora req
      /\ estado t = (if s_prepaga req then CONFIRMADO else PENDIENTE)
      /\ List.length (ocupantes (fst (nuevo_turno db req))
                        (s_especialista_id req) (s_fecha req) (s_hora req))
         = S (List.length (ocupantes db (s_especialista_id req) (s_fecha req)
                             (s_hora req)))
      /\ count_turnos_del_dia (fst (nuevo_turno db req))
           (s_especialista_id req) (s_fecha req)
         = count_turnos_del_dia db (s_especialista_id req) (s_fecha req) + 1.
Proof.
  intros db req Hq.
  pose proof (nuevo_turno_inserta db req Hq) as Hoc.
  unfold nuevo_turno in *. rewrite Hq in *. cbn [fst] in *.
  exists {| t_id := siguiente_id (turnos db);
            paciente_id := s_paciente_id req;
            t_especialista_id := Some (s_especialista_id req);
            t_especialidad_id := s_especialidad_id req;
            t_fecha := s_fecha req;
            t_hora := s_hora req;
            estado := if s_prepaga req then CONFIRMADO else PENDIENTE |}.
  split; [ reflexivity | ].
  cbn [paciente_id t_especialista_id t_especialidad_id t_fecha t_hora estado].
  repeat split; try reflexivity; try exact Hoc.
  unfold count_turnos_del_dia. cbn [set_turnos turnos].
  rewrite filter_app, length_app. cbn [filter].
  unfold turno_del_dia at 2. cbn [t_especialista_id t_fecha estado col_eq].
  rewrite !Z.eqb_refl. cbn [andb].
  replace (estado_ocupa (if s_prepaga req then CONFIRMADO else PENDIENTE))
    with true by (destruct (s_prepaga req); reflexivity).
  cbn [List.length]. lia.
Qed.

Lemma nuevo_turno_efecto_witness :
  exists t,
    nuevo_turno Ejemplos.db_tras_primera (Ejemplos.solicitud 502 false)
    = (set_turnos Ejemplos.db_tras_primera (turnos Ejemplos.db_tras_primera ++ [t]),
       TurnoAgendado (t_id t))
    /\ paciente_id t = 502
    /\ t_especialista_id t = Some 1
    /\ t_especialidad_id t = 7
    /\ t_fecha t = Ejemplos.lunes
    /\ t_hora t = hm 9 0
    /\ estado t = PENDIENTE
    /\ List.length (ocupantes (fst (nuevo_turno Ejemplos.db_tras_primera
                                      (Ejemplos.solicitud 502 false)))
                      1 Ejemplos.lunes (hm 9 0))
       = S (List.length (ocupantes Ejemplos.db_tras_primera 1 Ejemplos.lunes (hm 9 0)))
    /\ count_turnos_del_dia (fst (nuevo_turno Ejemplos.db_tras_primera
                                    (Ejemplos.solicitud 502 false)))
         1 Ejemplos.lunes
       = count_turnos_del_dia Ejemplos.db_tras_primera 1 Ejemplos.lunes + 1.
Proof.
  apply (nuevo_turno_efecto Ejemplos.db_tras_primera (Ejemplos.solicitud 502 false)).
  reflexivity.
Defined.

(** ** [permission_required]: who gets through *)

Lemma split_colon_sin_colon (s : string) :
  tiene_colon s = false -> split_colon s = [s].
Proof.
  induction s as [ | c s IH ]; cbn [tiene_colon split_colon]; [ reflexivity | ].
  intros H. apply orb_false_iff in H. destruct H as [Hc Hs].
  rewrite Hc, (IH Hs). reflexivity.
Qed.

Lemma split_colon_par (r a : string) :
  tiene_colon r = false ->
  tiene_colon a = false ->
  tiene_colon (r ++ ":" ++ a) = true
  /\ split_colon (r ++ ":" ++ a) = [r; a].
Proof.
  intros Hr Ha. induction r as [ | c r IH ].
  - cbn [String.append tiene_colon split_colon]. cbn [Ascii.eqb Bool.eqb andb orb].
    rewrite (split_colon_sin_colon a Ha). split; reflexivity.
  - cbn [tiene_colon] in Hr. apply orb_false_iff in Hr. destruct Hr as [Hc Hr].
    destruct (IH Hr) as [IH1 IH2].
    change ((String c r ++ ":" ++ a)%string) with (String c (r ++ ":" ++ a)%string).
    cbn [tiene_colon split_colon]. rewrite Hc, IH1, IH2. split; reflexivity.
Qed.

Lemma str_in_In (x : string) (l : list string) : str_in x l = true <-> In x l.
Proof.
  unfold str_in. rewrite existsb_exists. split.
  - intros (y & Hy & He). apply String.eqb_eq in He. subst. exact Hy.
  - intros H. exists x. split; [ exact H | apply String.eqb_refl ].
Qed.

(** X23. For a view guarded by one requirement ["recurso:accion"] (neither
    part containing a colon), the view runs exactly when the session names a
    user of the table and [PERMISOS] gives that user's role the action on
    the resource; without a session, or with a user that is not in the
    table, the answer is the redirect to the login page. *)
Theorem permission_required_un_permiso :
  forall recurso accion sesion usuarios,
    tiene_colon recurso = false ->
    tiene_colon accion = false ->
    (permission_required [(recurso ++ ":" ++ accion)%string] sesion usuarios
     = EjecutaVista
     <-> exists user_id usuario acciones,
          sesion = Some user_id
          /\ find (fun u => fst u =? user_id) usuarios = Some usuario
          /\ dict_get (PERMISOS (snd usuario)) recurso = Some acciones
          /\ In accion acciones)
    /\ (sesion = None ->
        permission_required [(recurso ++ ":" ++ accion)%string] sesion usuarios
        = RedirigeLogin)
    /\ (forall user_id,
          sesion = Some user_id ->
          find (fun u => fst u =? user_id) usuarios = None ->
          permission_required [(recurso ++ ":" ++ accion)%string] sesion usuarios
          = RedirigeLogin).
Proof.
  intros r a sesion usuarios Hr Ha.
  destruct (split_colon_par r a Hr Ha) as [Hcolon Hsplit].
  split; [ | split ].
  - unfold permission_required. destruct sesion as [uid | ].
    + destruct (find (fun u => fst u =? uid) usuarios) as [u | ] eqn:Hu.
      * cbn [verificar_permisos]. rewrite Hcolon, Hsplit.
        destruct (dict_get (PERMISOS (snd u)) r) as [acc | ] eqn:Hd.
        -- destruct (str_in a acc) eqn:Hin.
           ++ split; [ intros _ | reflexivity ].
              exists uid, u, acc. repeat split; try assumption.
              apply str_in_In. exact Hin.
           ++ split.
              ** destruct (snd u); discriminate.
              ** intros (uid' & u' & acc' & Hs & Hf & Hd' & Hin').
                 injection Hs as <-. rewrite Hu in Hf. injection Hf as <-.
                 rewrite Hd in Hd'. injection Hd' as <-.
                 apply str_in_In in Hin'. congruence.
        -- split.
           ++ destruct (snd u); discriminate.
           ++ intros (uid' & u' & acc' & Hs & Hf & Hd' & _).
              injection Hs as <-. rewrite Hu in Hf. injection Hf as <-.
              congruence.
      * split; [ discriminate | ].
        intros (uid' & u' & acc' & Hs & Hf & _). injection Hs as <-. congruence.
    + split; [ discriminate | ].
      intros (uid' & u' & acc' & Hs & _). discriminate.
  - intros ->. reflexivity.
  - intros uid -> Hf. unfold permission_required. rewrite Hf. reflexivity.
Qed.

Lemma permission_required_un_permiso_witness :
  (permission_required [("turnos" ++ ":" ++ "ver")%string] (Some 2)
     [(1, PACIENTE); (2, RECEPCION)]
   = EjecutaVista
   <-> exists user_id usuario acciones,
        Some 2 = Some user_id
        /\ find (fun u => fst u =? user_id) [(1, PACIENTE); (2, RECEPCION)]
           = Some usuario
        /\ dict_get (PERMISOS (snd usuario)) "turnos" = Some acciones
        /\ In "ver"%string acciones)
  /\ (Some 2 = None ->
      permission_required [("turnos" ++ ":" ++ "ver")%string] (Some 2)
        [(1, PACIENTE); (2, RECEPCION)]
      = RedirigeLogin)
  /\ (forall user_id,
        Some 2 = Some user_id ->
        find (fun u => fst u =? user_id) [(1, PACIENTE); (2, RECEPCION)] = None ->
        permission_required [("turnos" ++ ":" ++ "ver")%string] (Some 2)
          [(1, PACIENTE); (2, RECEPCION)]
        = RedirigeLogin).
Proof.
  apply (permission_required_un_permiso "turnos" "ver" (Some 2)
           [(1, PACIENTE); (2, RECEPCION)]).
  - reflexivity.
  - reflexivity.
Defined.

(** X24. A requirement written without a colon is skipped: when none of the
    requirements of a view contains a colon, nobody gets through, not even
    an administrator, and nothing is raised. *)
Theorem permission_required_sin_colon :
  forall permisos_requeridos sesion usuarios,
    Forall (fun p => tiene_colon p = false) permisos_requeridos ->
    permission_required permisos_requeridos sesion usuarios <> EjecutaVista
    /\ permission_required permisos_requeridos sesion usuarios <> LanzaValueError.
Proof.
  intros reqs sesion usuarios Hall.
  assert (Hden : forall pu, verificar_permisos pu reqs = Denegado).
  { intros pu. induction Hall as [ | p reqs Hp _ IH ]; cbn [verificar_permisos];
      [ reflexivity | ].
    rewrite Hp. exact IH. }
  unfold permission_required.
  destruct sesion as [uid | ]; [ | split; discriminate ].
  destruct (find (fun u => fst u =? uid) usuarios) as [u | ];
    [ | split; discriminate ].
  rewrite Hden. destruct (snd u); split; discriminate.
Qed.

Lemma permission_required_sin_colon_witness :
  permission_required ["especialistas"%string] (Some 1) [(1, ADMIN)] <> EjecutaVista
  /\ permission_required ["especialistas"%string] (Some 1) [(1, ADMIN)]
     <> LanzaValueError.
Proof.
  apply permission_required_sin_colon.
  constructor; [ reflexivity | constructor ].
Defined.

(** X25. With the table [PERMISOS] as it is, the views guarded by
    ['especialistas:horarios'] (adding and removing windows, creating
    blocks) run for administrators only, and the views guarded by
    ['turnos:ver'] (the slot and date APIs of the administration) run for
    administrators and reception only; everybody else is redirected. *)
Theorem permisos_de_agenda :
  forall sesion usuarios,
    (permission_required ["especialistas:horarios"%string] sesion usuarios
     = EjecutaVista
     <-> exists user_id usuario,
          sesion = Some user_id
          /\ find (fun u => fst u =? user_id) usuarios = Some usuario
          /\ snd usuario = ADMIN)
    /\ (permission_required ["turnos:ver"%string] sesion usuarios = EjecutaVista
        <-> exists user_id usuario,
             sesion = Some user_id
             /\ find (fun u => fst u =? user_id) usuarios = Some usuario
             /\ (snd usuario = ADMIN \/ snd usuario = RECEPCION)).
Proof.
  intros sesion usuarios. unfold permission_required.
  destruct sesion as [uid | ].
  - destruct (find (fun u => fst u =? uid) usuarios) as [[id rol] | ] eqn:Hu.
    + cbn [snd]. split; split.
      * intros H. exists uid, (id, rol).
        split; [ reflexivity | split; [ exact Hu | ] ]. cbn [snd].
        destruct rol; vm_compute in H; try discriminate; reflexivity.
      * intros (uid' & u' & Hs & Hf & Hrol). injection Hs as <-.
        rewrite Hu in Hf. injection Hf as <-. cbn [snd] in Hrol. subst rol. reflexivity.
      * intros H. exists uid, (id, rol).
        split; [ reflexivity | split; [ exact Hu | ] ]. cbn [snd].
        destruct rol; vm_compute in H; try discriminate; auto.
      * intros (uid' & u' & Hs & Hf & Hrol). injection Hs as <-.
        rewrite Hu in Hf. injection Hf as <-. cbn [snd] in Hrol.
        destruct Hrol; subst rol; reflexivity.
    + split; split; try discriminate;
        intros (uid' & u' & Hs & Hf & _); injection Hs as <-; congruence.
  - split; split; try discriminate; intros (uid' & u' & Hs & _); discriminate.
Qed.
